(** * genny: rollup summary extraction and cedar report assembly

    A shallow embedding of

    - [src/workloads/contrib/analysis/test_result_summary_v2.py]
      (the conversion table [FIELDS_TO_EXTRACT] and [process_ftdc_files]), and
    - [src/python/genny/cedar_report.py]
      ([_Config], [build_report], [CertRetriever._fetch]),

    followed by the properties of these functions.

    Python values live in one universe [pyval]; exceptions are explicit
    ([result]); the collaborators outside the program (directory listing,
    the curator subprocess, the JSON file it writes, the HTTP endpoint and
    the local filesystem) are explicit arguments. *)

From Stdlib Require Import ZArith List String Ascii Bool Lia.
From Stdlib Require Import Floats.SpecFloat.
From stdpp Require Import gmap strings.

Import ListNotations.
Local Open Scope string_scope.
Local Open Scope Z_scope.
Set Warnings "-register-all".

(* ===================================================================== *)
(** * Python values, exceptions and the builtins the two files use *)
(* ===================================================================== *)

Module Py.

(** Exceptions raised by the modelled code.  All of them derive from
    Python's [Exception]. *)
Inductive exn : Type :=
  | KeyError (key : string)
  | TypeError
  | AttributeError
  | OverflowError
  | ZeroDivisionError
  | CalledProcessError (returncode : Z)
  | OSError
  | JSONDecodeError
  | HTTPError (status_code : Z)
  | ConnectionError.

Inductive result (A : Type) : Type :=
  | Ok (a : A)
  | Raise (e : exn).
Arguments Ok {A} a.
Arguments Raise {A} e.

Definition bind {A B : Type} (r : result A) (k : A -> result B) : result B :=
  match r with
  | Ok a => k a
  | Raise e => Raise e
  end.

Notation "x <- r ;; k" := (bind r (fun x => k))
  (at level 100, r at next level, right associativity, only parsing).

(** Python objects.  [PyFloat] is an IEEE 754 binary64 value, [PyDict] an
    insertion-ordered dictionary with [str] keys, [PyDatetime] a naive
    [datetime] counted in microseconds, and [PyNamedTuple] an instance of a
    [collections.namedtuple] class. *)
Inductive pyval : Type :=
  | PyNone
  | PyBool (b : bool)
  | PyInt (z : Z)
  | PyFloat (f : spec_float)
  | PyStr (s : string)
  | PyList (l : list pyval)
  | PyDict (d : list (string * pyval))
  | PyDatetime (t : Z)
  | PyNamedTuple (cls : string) (fields : list (string * pyval)).

Definition dict : Type := list (string * pyval).

(** ** Dictionaries *)

(** [d.get(k)] on the entries of a dictionary. *)
Fixpoint dict_get (k : string) (d : dict) : option pyval :=
  match d with
  | [] => None
  | (k', v) :: d' => if String.eqb k k' then Some v else dict_get k d'
  end.

(** [d[k] = v]: an existing key keeps its position, a new key is appended. *)
Fixpoint dict_set (k : string) (v : pyval) (d : dict) : dict :=
  match d with
  | [] => [(k, v)]
  | (k', v') :: d' =>
      if String.eqb k k' then (k', v) :: d' else (k', v') :: dict_set k v d'
  end.

(** [obj.get(key)]: only dictionaries have the method; a missing key gives
    [None]. *)
Definition py_get (obj : pyval) (key : string) : result pyval :=
  match obj with
  | PyDict d => Ok (match dict_get key d with Some v => v | None => PyNone end)
  | _ => Raise AttributeError
  end.

(** [for item in obj]: the items the loop sees. *)
Definition py_iter (obj : pyval) : result (list pyval) :=
  match obj with
  | PyList l => Ok l
  | PyDict d => Ok (map (fun kv => PyStr (fst kv)) d)
  | PyStr s =>
      Ok (map (fun c => PyStr (String c EmptyString)) (list_ascii_of_string s))
  | PyNamedTuple _ fields => Ok (map snd fields)
  | PyNone | PyBool _ | PyInt _ | PyFloat _ | PyDatetime _ => Raise TypeError
  end.

(** [hash(obj)] succeeds: lists and dictionaries are unhashable, a tuple is
    hashable when its items are. *)
Fixpoint py_hashable (obj : pyval) : bool :=
  match obj with
  | PyList _ | PyDict _ => false
  | PyNamedTuple _ fields =>
      (fix all (l : list (string * pyval)) : bool :=
         match l with
         | [] => true
         | (_, v) :: l' => py_hashable v && all l'
         end) fields
  | _ => true
  end.

(** ** Strings and paths *)

(** [s.endswith(suffix)] *)
Definition endswith (s suffix : string) : bool :=
  let n := String.length s in
  let k := String.length suffix in
  (k <=? n)%nat && String.eqb (substring (n - k) k s) suffix.

(** [s[:-k]] for a positive literal [k]. *)
Definition slice_drop_last (k : nat) (s : string) : string :=
  substring 0 (String.length s - k) s.

(** [posixpath.join(a, b)] *)
Definition os_path_join (a b : string) : string :=
  if String.prefix "/" b then b
  else if (String.eqb a "") || endswith a "/" then a +:+ b
  else a +:+ "/" +:+ b.

(** [posixpath.basename(p)]: what follows the last slash. *)
Fixpoint os_path_basename (p : string) : string :=
  match p with
  | EmptyString => EmptyString
  | String c p' =>
      match index 0 "/" p' with
      | Some _ => os_path_basename p'
      | None => if Ascii.eqb c "/" then p' else String c p'
      end
  end.

(** ** Numbers: true division by an integer literal, and [round(x, 3)] *)

Definition prec : Z := 53.
Definition emax : Z := 1024.

(** [int / int]: the quotient correctly rounded to binary64 (ties to even);
    a quotient too large for a float raises [OverflowError]. *)
Definition int_truediv (a b : Z) : result spec_float :=
  if b =? 0 then Raise ZeroDivisionError
  else if a =? 0 then Ok (S754_zero (b <? 0))
  else
    match SFdiv prec emax
            (S754_finite (a <? 0) (Z.to_pos (Z.abs a)) 0)
            (S754_finite (b <? 0) (Z.to_pos (Z.abs b)) 0) with
    | S754_infinity _ => Raise OverflowError
    | q => Ok q
    end.

(** [float(n)] for an [int]. *)
Definition int_to_float (n : Z) : result spec_float :=
  match binary_normalize prec emax n 0 false with
  | S754_infinity _ => Raise OverflowError
  | f => Ok f
  end.

(** [float / int] *)
Definition float_truediv (x : spec_float) (b : Z) : result spec_float :=
  y <- int_to_float b ;;
  match y with
  | S754_zero _ => Raise ZeroDivisionError
  | _ => Ok (SFdiv prec emax x y)
  end.

(** [v / b] where [b] is an [int] literal. *)
Definition py_truediv (v : pyval) (b : Z) : result pyval :=
  match v with
  | PyBool t => q <- int_truediv (Z.b2z t) b ;; Ok (PyFloat q)
  | PyInt a => q <- int_truediv a b ;; Ok (PyFloat q)
  | PyFloat x => q <- float_truediv x b ;; Ok (PyFloat q)
  | _ => Raise TypeError
  end.

(** [n / d] rounded to the nearest integer, ties to even ([0 <= n], [0 < d]). *)
Definition div_half_even (n d : Z) : Z :=
  let q := n / d in
  match (2 * (n mod d) ?= d) with
  | Lt => q
  | Gt => q + 1
  | Eq => if Z.even q then q else q + 1
  end.

(** [float.__round__(x, ndigits)] for [0 <= ndigits]: the exact value of [x]
    is rounded to [ndigits] decimals (ties to even) and the decimal is
    converted back to the nearest float; zeros keep their sign, infinities
    and NaN round to themselves. *)
Definition float_round (x : spec_float) (ndigits : Z) : spec_float :=
  match x with
  | S754_finite s m e =>
      let scaled := Zpos m * 10 ^ ndigits in
      let n := if 0 <=? e then scaled * 2 ^ e
               else div_half_even scaled (2 ^ (- e)) in
      if n =? 0 then S754_zero s
      else SFdiv prec emax (S754_finite s (Z.to_pos n) 0)
                           (S754_finite false (Z.to_pos (10 ^ ndigits)) 0)
  | _ => x
  end.

(** [round(v, 3)]: an [int] (or [bool]) rounds to itself as an [int]. *)
Definition py_round3 (v : pyval) : result pyval :=
  match v with
  | PyBool t => Ok (PyInt (Z.b2z t))
  | PyInt a => Ok (PyInt a)
  | PyFloat x => Ok (PyFloat (float_round x 3))
  | _ => Raise TypeError
  end.

(** [isinstance(v, (int, float))]; [bool] is a subclass of [int]. *)
Definition is_number (v : pyval) : bool :=
  match v with
  | PyBool _ | PyInt _ | PyFloat _ => true
  | _ => false
  end.

End Py.

(* ===================================================================== *)
(** * test_result_summary_v2.py *)
(* ===================================================================== *)

Module TestResultSummaryV2.
Import Py.

(** The conversion table: each recognized field with its conversion. *)
Definition FIELDS_TO_EXTRACT : list (string * (pyval -> result pyval)) :=
  [ ("AverageLatency",        fun v => py_truediv v 1000000);
    ("OperationThroughput",   fun v => Ok v);
    ("ErrorRate",             fun v => Ok v);
    ("Latency50thPercentile", fun v => py_truediv v 1000000);
    ("Latency80thPercentile", fun v => py_truediv v 1000000);
    ("Latency90thPercentile", fun v => py_truediv v 1000000);
    ("Latency95thPercentile", fun v => py_truediv v 1000000);
    ("Latency99thPercentile", fun v => py_truediv v 1000000);
    ("LatencyMin",            fun v => py_truediv v 1000000);
    ("LatencyMax",            fun v => py_truediv v 1000000);
    ("DurationTotal",         fun v => py_truediv v 1000000000);
    ("ErrorsTotal",           fun v => Ok v);
    ("OperationsTotal",       fun v => Ok v);
    ("DocumentsTotal",        fun v => Ok v) ].

(** [FIELDS_TO_EXTRACT[name]] for a [str] key. *)
Fixpoint table_get {A : Type} (name : string) (t : list (string * A))
  : option A :=
  match t with
  | [] => None
  | (k, a) :: t' => if String.eqb name k then Some a else table_get name t'
  end.

(** [name in FIELDS_TO_EXTRACT], together with the entry found.  The test
    hashes [name], so a list or a dictionary raises; a hashable value that is
    not a [str] equals no key. *)
Definition fields_lookup (name : pyval)
  : result (option (string * (pyval -> result pyval))) :=
  if py_hashable name then
    match name with
    | PyStr s =>
        Ok (match table_get s FIELDS_TO_EXTRACT with
            | Some conv => Some (s, conv)
            | None => None
            end)
    | _ => Ok None
    end
  else Raise TypeError.

(** One pass of the loop over [output_data] (lines 52-56). *)
Definition extract_item (filtered : dict) (item : pyval) : result dict :=
  name <- py_get item "Name" ;;
  entry <- fields_lookup name ;;
  match entry with
  | Some (key, conv) =>
      value <- py_get item "Value" ;;
      converted <- conv value ;;
      rounded <- py_round3 converted ;;
      Ok (dict_set key rounded filtered)
  | None => Ok filtered
  end.

Fixpoint extract_items (filtered : dict) (items : list pyval) : result dict :=
  match items with
  | [] => Ok filtered
  | item :: rest =>
      filtered' <- extract_item filtered item ;;
      extract_items filtered' rest
  end.

(** Lines 50-56: the per-file record built from the parsed tool output. *)
Definition filter_output (output_data : pyval) : result dict :=
  items <- py_iter output_data ;;
  extract_items [] items.

(** The collaborators of [process_ftdc_files]: the directory listing, the
    subprocess runner (the return code of the child, or the exception raised
    when it cannot be started) and [json.load] on a freshly opened file.
    Each answers by its arguments: what the tool does with one capture does
    not depend on the other captures of the directory. *)
Record Host : Type := {
  os_listdir : string -> result (list string);
  subprocess_call : list string -> result Z;
  json_load_path : string -> result pyval
}.

(** [subprocess.run(argv, check=True, ...)] *)
Definition subprocess_run_check (h : Host) (argv : list string) : result unit :=
  returncode <- subprocess_call h argv ;;
  if returncode =? 0 then Ok tt else Raise (CalledProcessError returncode).

(** What the program writes on standard output. *)
Inductive output_line : Type :=
  | ErrorRunningCurator (filename : string)
  | ErrorReadingOutput (filename : string) (e : exn)
  | JsonDump (v : pyval).

(** [/tmp/{base_name}.output] *)
Definition output_path_of (base_name : string) : string :=
  "/tmp/" +:+ base_name +:+ ".output".

Definition curator_argv (ftdc_dir curator_path filename : string)
  : list string :=
  [ os_path_join curator_path "curator"; "calculate-rollups";
    "--inputFile"; os_path_join ftdc_dir filename;
    "--outputFile"; output_path_of (slice_drop_last 5 filename) ].

(** The body of the [for] loop for one capture file (lines 30-61). *)
Inductive capture_outcome : Type :=
  | Skipped (diagnostic : output_line)
  | Extracted (base_name : string) (filtered : dict)
  | Aborted (e : exn).

Definition process_capture (h : Host) (ftdc_dir curator_path filename : string)
  : capture_outcome :=
  let base_name := slice_drop_last 5 filename in
  let output_path := output_path_of base_name in
  match subprocess_run_check h
          (curator_argv ftdc_dir curator_path filename) with
  | Raise (CalledProcessError _) => Skipped (ErrorRunningCurator filename)
  | Raise e => Aborted e
  | Ok _ =>
      match (output_data <- json_load_path h output_path ;;
             filter_output output_data) with
      | Ok filtered => Extracted base_name filtered
      | Raise e => Skipped (ErrorReadingOutput filename e)
      end
  end.

(** The state of a run: [result_map], the lines printed so far, and the
    exception that ended the run, if any. *)
Record run_state : Type := {
  result_map : dict;
  stdout : list output_line;
  raised : option exn
}.

(** The [for filename in os.listdir(ftdc_dir)] loop. *)
Fixpoint process_loop (h : Host) (ftdc_dir curator_path : string)
    (filenames : list string) (result_map : dict) (out : list output_line)
  : run_state :=
  match filenames with
  | [] => {| result_map := result_map; stdout := out; raised := None |}
  | filename :: rest =>
      if negb (endswith filename ".ftdc") then
        process_loop h ftdc_dir curator_path rest result_map out
      else
        match process_capture h ftdc_dir curator_path filename with
        | Skipped line =>
            process_loop h ftdc_dir curator_path rest result_map
              (out ++ [line])%list
        | Extracted base_name filtered =>
            process_loop h ftdc_dir curator_path rest
              (dict_set base_name (PyDict filtered) result_map) out
        | Aborted e =>
            {| result_map := result_map; stdout := out; raised := Some e |}
        end
  end.

(** [process_ftdc_files(ftdc_dir, curator_path)]: what it prints and what it
    returns (or raises).  The function has no [return] statement. *)
Definition process_ftdc_files (h : Host) (ftdc_dir curator_path : string)
  : list output_line * result pyval :=
  match os_listdir h ftdc_dir with
  | Raise e => ([], Raise e)
  | Ok filenames =>
      let st := process_loop h ftdc_dir curator_path filenames [] [] in
      match raised st with
      | Some e => (stdout st, Raise e)
      | None =>
          ((stdout st ++ [JsonDump (PyDict (result_map st))])%list, Ok PyNone)
      end
  end.

(** The aggregate mapping a finished run has printed. *)
Definition printed_mapping (run : list output_line * result pyval)
  : option pyval :=
  match snd run with
  | Ok _ => match last (fst run) with
            | Some (JsonDump m) => Some m
            | _ => None
            end
  | Raise _ => None
  end.

(** The conversion table as the specification words it: a divisor per
    recognized field. *)
Definition spec_latency_fields : list string :=
  [ "AverageLatency"; "Latency50thPercentile"; "Latency80thPercentile";
    "Latency90thPercentile"; "Latency95thPercentile"; "Latency99thPercentile";
    "LatencyMin"; "LatencyMax" ].

Definition spec_passthrough_fields : list string :=
  [ "OperationThroughput"; "ErrorRate"; "ErrorsTotal"; "OperationsTotal";
    "DocumentsTotal" ].

Definition spec_divisor (f : string) : option Z :=
  if existsb (String.eqb f) spec_latency_fields then Some 1000000
  else if String.eqb f "DurationTotal" then Some 1000000000
  else if existsb (String.eqb f) spec_passthrough_fields then Some 1
  else None.

(** [round(v / d, 3)], the identity conversion when [d = 1]. *)
Definition spec_round_div (v : pyval) (d : Z) : result pyval :=
  converted <- (if d =? 1 then Ok v else py_truediv v d) ;;
  py_round3 converted.

(** ** Vocabulary of the statements below *)

(** The same collaborators with the capture [filename] absent from every
    directory listing. *)
Definition without_capture (filename : string) (h : Host) : Host :=
  {| os_listdir := fun d =>
       names <- os_listdir h d ;;
       Ok (List.filter (fun g => negb (String.eqb g filename)) names);
     subprocess_call := subprocess_call h;
     json_load_path := json_load_path h |}.

(** The tool exits with a non-zero status on [filename], or it exits with 0
    and reading, parsing or filtering its output raises. *)
Definition capture_fails (h : Host) (ftdc_dir curator_path filename : string)
  : Prop :=
  (exists code, code <> 0 /\
     subprocess_call h (curator_argv ftdc_dir curator_path filename) = Ok code)
  \/
  (subprocess_call h (curator_argv ftdc_dir curator_path filename) = Ok 0 /\
   exists e,
     (output_data <-
        json_load_path h (output_path_of (slice_drop_last 5 filename)) ;;
      filter_output output_data) = Raise e).

(** A value [round(x, 3)] can return: an [int] or a [float]. *)
Definition rounded_number (x : pyval) : Prop :=
  match x with
  | PyInt _ | PyFloat _ => True
  | _ => False
  end.

(** [name] is one of the fourteen recognized field names. *)
Definition recognized (name : pyval) : bool :=
  match name with
  | PyStr f => match spec_divisor f with Some _ => true | None => false end
  | _ => false
  end.

End TestResultSummaryV2.

(* ===================================================================== *)
(** * cedar_report.py *)
(* ===================================================================== *)

Module CedarReport.
Import Py.

(** An instance of a [namedtuple] class: the class name and the fields in
    declaration order. *)
Record namedtuple : Type := {
  nt_cls : string;
  nt_fields : dict
}.

(** [t._asdict()] *)
Definition _asdict (t : namedtuple) : pyval := PyDict (nt_fields t).

(** The instance itself as a Python value. *)
Definition nt_value (t : namedtuple) : pyval :=
  PyNamedTuple (nt_cls t) (nt_fields t).

Definition CedarBucketConfig (api_key api_secret api_token region name prefix
    : pyval) : namedtuple :=
  {| nt_cls := "CedarBucketConfig";
     nt_fields := [ ("api_key", api_key); ("api_secret", api_secret);
                    ("api_token", api_token); ("region", region);
                    ("name", name); ("prefix", prefix) ] |}.

Definition CedarTestArtifact (bucket path tags local_path created_at
    is_uncompressed : pyval) : namedtuple :=
  {| nt_cls := "CedarTestArtifact";
     nt_fields := [ ("bucket", bucket); ("path", path); ("tags", tags);
                    ("local_path", local_path); ("created_at", created_at);
                    ("is_uncompressed", is_uncompressed) ] |}.

Definition CedarTestInfo (test_name trial tags args : pyval) : namedtuple :=
  {| nt_cls := "CedarTestInfo";
     nt_fields := [ ("test_name", test_name); ("trial", trial);
                    ("tags", tags); ("args", args) ] |}.

(** The declaration documents [artifacts] as a list of [CedarTestArtifact]. *)
Definition CedarTest (info created_at completed_at artifacts metrics sub_tests
    : pyval) : namedtuple :=
  {| nt_cls := "CedarTest";
     nt_fields := [ ("info", info); ("created_at", created_at);
                    ("completed_at", completed_at); ("artifacts", artifacts);
                    ("metrics", metrics); ("sub_tests", sub_tests) ] |}.

Definition CedarReport (project version variant task_name task_id
    execution_number mainline tests bucket : pyval) : namedtuple :=
  {| nt_cls := "CedarReport";
     nt_fields := [ ("project", project); ("version", version);
                    ("variant", variant); ("task_name", task_name);
                    ("task_id", task_id);
                    ("execution_number", execution_number);
                    ("mainline", mainline); ("tests", tests);
                    ("bucket", bucket) ] |}.

Definition REPORT_FILE : string := "cedar_report.json".

(** The attributes of a [_Config] object.  The instant [now] and the
    duration [test_run_time] are microsecond counts, so that their difference
    is the integer difference. *)
Record _Config : Type := {
  project : string;
  version : string;
  variant : string;
  task_name : string;
  task_id : string;
  execution_number : string;
  mainline : bool;
  test_name : string;
  metrics_file_names : list string;
  test_run_time : Z;
  now : Z;
  api_key : string;
  api_secret : string;
  cloud_region : string;
  cloud_bucket : string
}.

(** [env[key]] *)
Definition env_get (env : gmap string string) (key : string) : result string :=
  match env !! key with
  | Some v => Ok v
  | None => Raise (KeyError key)
  end.

(** [_Config.__init__]; [utcnow] is what [datetime.datetime.utcnow()]
    returns during the call. *)
Definition _Config__init__ (env : gmap string string)
    (metrics_file_names : list string) (test_run_time : Z) (utcnow : Z)
  : result _Config :=
  project <- env_get env "EVG_project" ;;
  version <- env_get env "EVG_version" ;;
  variant <- env_get env "EVG_variant" ;;
  task_name <- env_get env "EVG_task_name" ;;
  task_id <- env_get env "EVG_task_id" ;;
  execution_number <- env_get env "EVG_execution_number" ;;
  is_patch <- env_get env "EVG_is_patch" ;;
  test_name <- env_get env "test_name" ;;
  api_key <- env_get env "aws_key" ;;
  api_secret <- env_get env "aws_secret" ;;
  Ok {| project := project; version := version; variant := variant;
        task_name := task_name; task_id := task_id;
        execution_number := execution_number;
        mainline := negb (String.eqb is_patch "true");
        test_name := test_name;
        metrics_file_names := metrics_file_names;
        test_run_time := test_run_time;
        now := utcnow;
        api_key := api_key; api_secret := api_secret;
        cloud_region := "us-east-1";
        cloud_bucket := "dsi-genny-metrics" |}.

(** The [created_at] property. *)
Definition created_at (config : _Config) : Z :=
  now config - test_run_time config.

(** ['{}_{}'.format(a, b)] on two [str] arguments. *)
Definition format_underscore (a b : string) : string := a +:+ "_" +:+ b.

(** Lines 96-108: the [artifacts] list filled by the loop over
    [config.metrics_file_names]. *)
Definition build_artifacts (config : _Config) : list pyval :=
  map (fun path =>
         let base_name := os_path_basename path in
         _asdict (CedarTestArtifact
                    (PyStr (cloud_bucket config))
                    (PyStr base_name)
                    (PyList [])
                    (PyStr path)
                    (PyDatetime (created_at config))
                    (PyBool true)))
      (metrics_file_names config).

(** [build_report(config)].  The local [artifacts] is filled and then not
    read again: the [artifacts] argument of [CedarTest] is
    [bucket_config._asdict()]. *)
Definition build_report (config : _Config) : pyval :=
  let artifacts := build_artifacts config in
  let bucket_prefix :=
    format_underscore (task_id config) (execution_number config) in
  let bucket_config :=
    CedarBucketConfig (PyStr (api_key config)) (PyStr (api_secret config))
      PyNone (PyStr (cloud_region config)) (PyStr (cloud_bucket config))
      (PyStr bucket_prefix) in
  let test_info :=
    CedarTestInfo (PyStr (test_name config)) (PyInt 0) (PyList [])
      (PyDict []) in
  let test :=
    CedarTest (_asdict test_info) (PyDatetime (created_at config))
      (PyDatetime (now config)) (_asdict bucket_config) PyNone PyNone in
  let report :=
    CedarReport (PyStr (project config)) (PyStr (version config))
      (PyStr (variant config)) (PyStr (task_name config))
      (PyStr (task_id config)) (PyStr (execution_number config))
      (PyBool (mainline config)) (PyList [_asdict test])
      (nt_value bucket_config) in
  _asdict report.

(** Reading the built document: [report[key]], [t.field], the tests. *)
Definition report_get (report : pyval) (key : string) : option pyval :=
  match report with
  | PyDict d => dict_get key d
  | _ => None
  end.

Definition getattr (obj : pyval) (field : string) : option pyval :=
  match obj with
  | PyNamedTuple _ fields => dict_get field fields
  | _ => None
  end.

Definition report_tests (report : pyval) : list pyval :=
  match report_get report "tests" with
  | Some (PyList tests) => tests
  | _ => []
  end.

(** The [CedarTestArtifact] dictionaries found under [artifacts] in the tests
    of a report, when that entry is a list. *)
Definition test_artifacts (test : pyval) : option (list pyval) :=
  match report_get test "artifacts" with
  | Some (PyList l) => Some l
  | _ => None
  end.

(** ** CertRetriever *)

Record Response : Type := {
  status_code : Z;
  text : string
}.

(** [resp.raise_for_status()]: an [HTTPError] for the 4xx and 5xx codes. *)
Definition raise_for_status (resp : Response) : result unit :=
  if (400 <=? status_code resp) && (status_code resp <? 600)
  then Raise (HTTPError (status_code resp))
  else Ok tt.

(** The state [_fetch] acts on: the files of the local filesystem with their
    contents, and the HTTP requests sent so far. *)
Record World : Type := {
  files : gmap string string;
  requests_sent : list (string * list (string * string))
}.

Definition os_path_exists (w : World) (path : string) : bool :=
  bool_decide (is_Some (files w !! path)).

(** [CertRetriever._fetch(url, output, **kwargs)].  [requests_get] is the
    remote end: the response to a request, or the exception raised when no
    response arrives. *)
Definition _fetch
    (requests_get : string -> list (string * string) -> result Response)
    (url output : string) (kwargs : list (string * string)) (w : World)
  : result string * World :=
  if os_path_exists w output then (Ok output, w)
  else
    let w1 :=
      {| files := files w;
         requests_sent := (requests_sent w ++ [(url, kwargs)])%list |} in
    match requests_get url kwargs with
    | Raise e => (Raise e, w1)
    | Ok resp =>
        match raise_for_status resp with
        | Raise e => (Raise e, w1)
        | Ok _ =>
            (Ok output,
             {| files := <[output := text resp]> (files w1);
                requests_sent := requests_sent w1 |})
        end
    end.

Definition root_ca requests_get (w : World) : result string * World :=
  _fetch requests_get "https://cedar.mongodb.com/rest/v1/admin/ca"
    "cedar.ca.pem" [] w.

Definition user_cert requests_get (auth : string) (w : World)
  : result string * World :=
  _fetch requests_get
    "https://cedar.mongodb.com/rest/v1/admin/users/certificate"
    "cedar.user.crt" [("data", auth)] w.

Definition user_key requests_get (auth : string) (w : World)
  : result string * World :=
  _fetch requests_get
    "https://cedar.mongodb.com/rest/v1/admin/users/certificate/key"
    "cedar.user.key" [("data", auth)] w.

(** ** Vocabulary of the statements below *)

(** [report["bucket"].prefix] *)
Definition bucket_prefix_of (report : pyval) : option pyval :=
  match report_get report "bucket" with
  | Some bucket => getattr bucket "prefix"
  | None => None
  end.

(** The keys [_Config.__init__] reads from the environment. *)
Definition config_keys : list string :=
  [ "EVG_project"; "EVG_version"; "EVG_variant"; "EVG_task_name";
    "EVG_task_id"; "EVG_execution_number"; "EVG_is_patch"; "test_name";
    "aws_key"; "aws_secret" ].

(** [s] contains no underscore. *)
Definition no_underscore (s : string) : Prop :=
  existsb (Ascii.eqb "_") (list_ascii_of_string s) = false.

End CedarReport.

(* ===================================================================== *)
(** * Concrete runs used in the examples below *)
(* ===================================================================== *)

Module Scenarios.
Import Py TestResultSummaryV2 CedarReport.

(** The float [2.0]. *)
Definition two : spec_float := S754_finite false 4503599627370496 (-51).

(** The tool output of the capture [run1.ftdc]:
    [[{"Name":"AverageLatency","Value":2000000},{"Name":"Unused","Value":5}]] *)
Definition run1_output : pyval :=
  PyList [ PyDict [("Name", PyStr "AverageLatency"); ("Value", PyInt 2000000)];
           PyDict [("Name", PyStr "Unused"); ("Value", PyInt 5)] ].

(** A directory [/data] holding the given names; the tool exits with status
    1 on [bad.ftdc] and with 0 otherwise; [/tmp/run1.output] holds
    [run1_output], [/tmp/text.output] a record whose value is a string, and
    no other output file can be read. *)
Definition host_with (names : list string) : Host :=
  {| os_listdir := fun d => if String.eqb d "/data" then Ok names
                            else Raise OSError;
     subprocess_call := fun argv =>
       if existsb (String.eqb "/data/bad.ftdc") argv then Ok 1 else Ok 0;
     json_load_path := fun p =>
       if String.eqb p "/tmp/run1.output" then Ok run1_output
       else if String.eqb p "/tmp/text.output" then
         Ok (PyList [ PyDict [("Name", PyStr "ErrorsTotal");
                              ("Value", PyInt 7)];
                      PyDict [("Name", PyStr "LatencyMax");
                              ("Value", PyStr "slow")] ])
       else Raise JSONDecodeError |}.

Definition run1_host : Host := host_with ["run1.ftdc"].

Definition mixed_host : Host :=
  host_with ["bad.ftdc"; "notes.txt"; "run1.ftdc"].

(** Environments for [_Config.__init__]. *)
Definition env_with (task_id execution_number is_patch : string)
  : gmap string string :=
  <["EVG_project" := "genny"]> (
  <["EVG_version" := "abc123"]> (
  <["EVG_variant" := "linux"]> (
  <["EVG_task_name" := "insert"]> (
  <["EVG_task_id" := task_id]> (
  <["EVG_execution_number" := execution_number]> (
  <["EVG_is_patch" := is_patch]> (
  <["test_name" := "insert"]> (
  <["aws_key" := "AKIA"]> (
  <["aws_secret" := "s3cr3t"]> ∅))))))))).

Definition config_with (task_id execution_number : string)
    (paths : list string) : _Config :=
  {| project := "genny"; version := "abc123"; variant := "linux";
     task_name := "insert"; task_id := task_id;
     execution_number := execution_number; mainline := true;
     test_name := "insert"; metrics_file_names := paths;
     test_run_time := 90000000; now := 63700000000000000;
     api_key := "AKIA"; api_secret := "s3cr3t";
     cloud_region := "us-east-1"; cloud_bucket := "dsi-genny-metrics" |}.


(** The configuration with [metrics_file_names=["/tmp/a.txt","/tmp/b.txt"]]. *)
Definition config_ab : _Config :=
  config_with "task_7" "0" ["/tmp/a.txt"; "/tmp/b.txt"].

(** A world with no file and no request sent, one where [cedar.ca.pem]
    already exists, and remote ends answering with a fixed status. *)
Definition empty_world : World := {| files := ∅; requests_sent := [] |}.

Definition cached_world : World :=
  {| files := {["cedar.ca.pem" := "stale"]}; requests_sent := [] |}.

Definition answering (status : Z) (body : string)
  : string -> list (string * string) -> result Response :=
  fun _ _ => Ok {| status_code := status; text := body |}.

End Scenarios.

(* ===================================================================== *)
(** * Values Python computes, and two outputs that go wrong *)
(* ===================================================================== *)

Module RoundingScenarios.
Import Py TestResultSummaryV2.

(** The float [1.0]. *)
Definition one : spec_float := S754_finite false 4503599627370496 (-52).

(** A field name, a raw value and what [round(convert(value), 3)] is in
    Python for the conversion of that field: floats are given by their
    mantissa and exponent. *)
Definition python_rounded_values : list (string * pyval * pyval) :=
  [
    ("AverageLatency",
     PyInt 2000000,
     PyFloat (S754_finite false 4503599627370496 (-51)));
    ("AverageLatency",
     PyInt 1234567,
     PyFloat (S754_finite false 5561945539802563 (-52)));
    ("AverageLatency",
     PyInt 1234467,
     PyFloat (S754_finite false 5557441940175192 (-52)));
    ("LatencyMax",
     PyInt 62500,
     PyFloat (S754_finite false 8935141660703064 (-57)));
    ("LatencyMax",
     PyInt 187500,
     PyFloat (S754_finite false 6773413839565226 (-55)));
    ("LatencyMin",
     PyInt 2500,
     PyFloat (S754_finite false 6917529027641082 (-61)));
    ("LatencyMin",
     PyInt (-1234567),
     PyFloat (S754_finite true 5561945539802563 (-52)));
    ("LatencyMin",
     PyInt (-1),
     PyFloat (S754_zero true));
    ("Latency99thPercentile",
     PyFloat (S754_finite false 5302424889720832 (-32)),
     PyFloat (S754_finite false 5561945539802563 (-52)));
    ("Latency99thPercentile",
     PyFloat (S754_finite false 5404319552844595 (-54)),
     PyFloat (S754_zero false));
    ("Latency99thPercentile",
     PyBool true,
     PyFloat (S754_zero false));
    ("AverageLatency",
     PyInt 10000000000000000000001,
     PyFloat (S754_finite false 5000000000000000 (1)));
    ("DurationTotal",
     PyInt 1234567890123,
     PyFloat (S754_finite false 5429687485120643 (-42)));
    ("DurationTotal",
     PyInt 1500000000,
     PyFloat (S754_finite false 6755399441055744 (-52)));
    ("DurationTotal",
     PyInt 499999,
     PyFloat (S754_zero false));
    ("ErrorRate",
     PyFloat (S754_finite false 8895509983982204 (-56)),
     PyFloat (S754_finite false 8863084066665136 (-56)));
    ("ErrorRate",
     PyFloat (S754_finite false 4503599627370496 (-56)),
     PyFloat (S754_finite false 8935141660703064 (-57)));
    ("OperationThroughput",
     PyFloat (S754_finite false 5429686605511341 (-42)),
     PyFloat (S754_finite false 5429687485120643 (-42)));
    ("ErrorsTotal",
     PyInt 7,
     PyInt 7);
    ("OperationsTotal",
     PyInt 9007199254740993,
     PyInt 9007199254740993);
    ("DocumentsTotal",
     PyFloat (S754_infinity false),
     PyFloat (S754_infinity false)) ].

(** The output of [huge.ftdc]:
    [[{"Name":"ErrorsTotal","Value":7},
      {"Name":"AverageLatency","Value":10**330}]] *)
Definition huge_output : pyval :=
  PyList [ PyDict [("Name", PyStr "ErrorsTotal"); ("Value", PyInt 7)];
           PyDict [("Name", PyStr "AverageLatency");
                   ("Value", PyInt (10 ^ 330))] ].

(** A directory [/data] holding [huge.ftdc], on which the tool succeeds. *)
Definition huge_host : Host :=
  {| os_listdir := fun d => if String.eqb d "/data" then Ok ["huge.ftdc"]
                            else Raise OSError;
     subprocess_call := fun _ => Ok 0;
     json_load_path := fun p =>
       if String.eqb p "/tmp/huge.output" then Ok huge_output
       else Raise JSONDecodeError |}.

(** An output with the same name twice:
    [[{"Name":"AverageLatency","Value":1000000},
      {"Name":"AverageLatency","Value":2000000}]] *)
Definition repeated_output : pyval :=
  PyList [ PyDict [("Name", PyStr "AverageLatency"); ("Value", PyInt 1000000)];
           PyDict [("Name", PyStr "AverageLatency"); ("Value", PyInt 2000000)] ].

End RoundingScenarios.

(* ===================================================================== *)
(** * test_result_summary_v2.py: the script entry point *)
(* ===================================================================== *)

Module TestResultSummaryScript.
Import Py TestResultSummaryV2.

(** What the script writes on standard output: the usage line, or a line of
    [process_ftdc_files]. *)
Inductive script_line : Type :=
  | Usage
  | Printed (line : output_line).

(** The [if __name__ == "__main__"] block (lines 65-73) on [sys.argv]: the
    lines printed and the exit status of the interpreter ([sys.exit(1)] and
    an exception that nothing catches both end it with status 1). *)
Definition script_main (h : Host) (argv : list string)
  : list script_line * Z :=
  match argv with
  | [_; ftdc_directory; curator_directory] =>
      let run := process_ftdc_files h ftdc_directory curator_directory in
      (map Printed (fst run),
       match snd run with
       | Ok _ => 0
       | Raise _ => 1
       end)
  | _ => ([Usage], 1)
  end.

(** ** Vocabulary of the statements below *)

(** The diagnostics of the captures of a listing that are skipped, in the
    order of the listing. *)
Definition diagnostics_of (h : Host) (ftdc_dir curator_path : string)
    (names : list string) : list output_line :=
  flat_map
    (fun filename =>
       if endswith filename ".ftdc" then
         match process_capture h ftdc_dir curator_path filename with
         | Skipped diagnostic => [diagnostic]
         | _ => []
         end
       else [])
    names.

(** The same collaborators with every listing cut down to the names that
    end with [.ftdc]. *)
Definition only_captures (h : Host) : Host :=
  {| os_listdir := fun d =>
       names <- os_listdir h d ;;
       Ok (List.filter (fun g => endswith g ".ftdc") names);
     subprocess_call := subprocess_call h;
     json_load_path := json_load_path h |}.

(** The same collaborators with another listing of the directories. *)
Definition with_listing (listing : string -> result (list string)) (h : Host)
  : Host :=
  {| os_listdir := listing;
     subprocess_call := subprocess_call h;
     json_load_path := json_load_path h |}.

(** Every capture of the listing gets its subprocess started. *)
Definition all_started (h : Host) (ftdc_dir curator_path : string)
    (names : list string) : Prop :=
  forall f, In f names -> endswith f ".ftdc" = true ->
    exists code,
      subprocess_call h (curator_argv ftdc_dir curator_path f) = Ok code.

(** [item] is a record with a hashable name outside the table. *)
Definition unrecognized_record (item : pyval) : Prop :=
  exists name, py_get item "Name" = Ok name /\
               py_hashable name = true /\ recognized name = false.

End TestResultSummaryScript.

(* ===================================================================== *)
(** * cedar_report.py: the upload pipeline *)
(* ===================================================================== *)

Module CedarUpload.
Import Py CedarReport.

(** [ShellCuratorRunner.get_command] with a [CertRetriever] whose [auth] is
    [auth]: the items of the list are evaluated from left to right, so the
    user certificate is fetched first, then the key, then the root CA. *)
Definition get_command
    (requests_get : string -> list (string * string) -> result Response)
    (auth : string) (w : World) : result (list string) * World :=
  let (cert, w1) := user_cert requests_get auth w in
  match cert with
  | Raise e => (Raise e, w1)
  | Ok cert =>
      let (key, w2) := user_key requests_get auth w1 in
      match key with
      | Raise e => (Raise e, w2)
      | Ok key =>
          let (ca, w3) := root_ca requests_get w2 in
          match ca with
          | Raise e => (Raise e, w3)
          | Ok ca =>
              (Ok [ "curator"; "poplar"; "send";
                    "--service"; "cedar.mongodb.com:7070";
                    "--cert"; cert; "--key"; key; "--ca"; ca;
                    "--path"; REPORT_FILE ],
               w3)
          end
      end
  end.

(** [ShellCuratorRunner.run(cmd)]: [subprocess.run(cmd)] followed by
    [check_returncode()]. *)
Definition run (subprocess_call : list string -> result Z)
    (cmd : list string) : result unit :=
  returncode <- subprocess_call cmd ;;
  if returncode =? 0 then Ok tt else Raise (CalledProcessError returncode).

(** The attributes of the parsed command line that [main__cedar_report]
    reads.  [--test-name] has no default, [--report-file] defaults to
    [REPORT_FILE]. *)
Record Args : Type := {
  args_test_name : option string;
  output_dir : string;
  report_file : string
}.

(** What [main__cedar_report] rests on and the source does not hold:
    [os.environ]; [cedar.run], which acts on the world (it produces the
    metric files) and returns the metric file names and the run time, or
    raises; the clock; whether [open(path, 'w')] succeeds on the path of the
    report; the text [json.dump] writes for a document with
    [ISODateTimeEncoder]; the text [json.dumps] makes of the credentials;
    the remote end and the subprocess runner. *)
Record Platform : Type := {
  os_environ : gmap string string;
  cedar_run : Args -> World -> result (list string * Z) * World;
  utcnow : Z;
  open_report : string -> result unit;
  json_dump : pyval -> string;
  json_dumps_credentials : string -> string -> string;
  requests_get : string -> list (string * string) -> result Response;
  subprocess_call : list string -> result Z
}.

(** How a call of [main__cedar_report] ends: what it returns or raises, the
    files and requests, and the commands it has run. *)
Record Outcome : Type := {
  returned : result unit;
  final_world : World;
  commands_run : list (list string)
}.

Definition raising (e : exn) (w : World) : Outcome :=
  {| returned := Raise e; final_world := w; commands_run := [] |}.

(** Lines 268-269: [if not env: env = os.environ.copy()].  An absent and an
    empty [env] are both false. *)
Definition effective_env (p : Platform) (env : option (gmap string string))
  : gmap string string :=
  match env with
  | Some given => if bool_decide (given = ∅) then os_environ p else given
  | None => os_environ p
  end.

(** Lines 271-274: the value stored under [env['test_name']]; an absent and
    an empty [args.test_name] are both false. *)
Definition chosen_test_name (env : gmap string string) (args : Args)
  : result string :=
  match args_test_name args with
  | Some name =>
      if String.eqb name "" then env_get env "EVG_task_name" else Ok name
  | None => env_get env "EVG_task_name"
  end.

(** The path the report is written to. *)
Definition report_path (args : Args) : string :=
  os_path_join (output_dir args) (report_file args).

(** [open(path, 'w')] at line 281: the empty path and a path that ends
    with a slash name no file that can be opened for writing; on any other
    path the platform decides (a missing directory, a directory of that
    name and a refused permission make it raise). *)
Definition open_for_writing (p : Platform) (path : string) : result unit :=
  if String.eqb path "" || endswith path "/" then Raise OSError
  else open_report p path.

(** [main__cedar_report] from the parsed arguments on, with the default
    [cert_retriever_cls]; [env] is the [env] argument ([None] when absent). *)
Definition main__cedar_report (p : Platform) (args : Args)
    (env : option (gmap string string)) (w : World) : Outcome :=
  let env := effective_env p env in
  match chosen_test_name env args with
  | Raise e => raising e w
  | Ok name =>
      let env := <["test_name" := name]> env in
      let (ran, w) := cedar_run p args w in
      match ran with
      | Raise e => raising e w
      | Ok (metrics_file_names, test_run_time) =>
          match _Config__init__ env metrics_file_names test_run_time
                  (utcnow p) with
          | Raise e => raising e w
          | Ok config =>
              let report_dict := build_report config in
              match open_for_writing p (report_path args) with
              | Raise e => raising e w
              | Ok _ =>
                  let w :=
                    {| files :=
                         <[report_path args := json_dump p report_dict]>
                           (files w);
                       requests_sent := requests_sent w |} in
                  match env_get env "perf_jira_user" with
                  | Raise e => raising e w
                  | Ok jira_user =>
                      match env_get env "perf_jira_pw" with
                      | Raise e => raising e w
                      | Ok jira_pwd =>
                          let auth :=
                            json_dumps_credentials p jira_user jira_pwd in
                          let (command, w) :=
                            get_command (requests_get p) auth w in
                          match command with
                          | Raise e => raising e w
                          | Ok cmd =>
                              {| returned := run (subprocess_call p) cmd;
                                 final_world := w;
                                 commands_run := [cmd] |}
                          end
                      end
                  end
              end
          end
      end
  end.

(** ** Vocabulary of the statements below *)

(** The command [get_command] builds. *)
Definition upload_command : list string :=
  [ "curator"; "poplar"; "send"; "--service"; "cedar.mongodb.com:7070";
    "--cert"; "cedar.user.crt"; "--key"; "cedar.user.key";
    "--ca"; "cedar.ca.pem"; "--path"; "cedar_report.json" ].

(** The first key of [keys] that [env] lacks. *)
Definition first_missing (env : gmap string string) (keys : list string)
  : option string :=
  List.find (fun k => match env !! k with Some _ => false | None => true end)
            keys.

(** A configuration with other metric file names. *)
Definition with_metrics_file_names (paths : list string) (c : _Config)
  : _Config :=
  {| project := project c; version := version c; variant := variant c;
     task_name := task_name c; task_id := task_id c;
     execution_number := execution_number c; mainline := mainline c;
     test_name := test_name c; metrics_file_names := paths;
     test_run_time := test_run_time c; now := now c;
     api_key := api_key c; api_secret := api_secret c;
     cloud_region := cloud_region c; cloud_bucket := cloud_bucket c |}.

(** The same platform with another [cedar.run]. *)
Definition with_cedar_run
    (r : Args -> World -> result (list string * Z) * World)
    (p : Platform) : Platform :=
  {| os_environ := os_environ p; cedar_run := r; utcnow := utcnow p;
     open_report := open_report p; json_dump := json_dump p;
     json_dumps_credentials := json_dumps_credentials p;
     requests_get := requests_get p; subprocess_call := subprocess_call p |}.

(** The world after the report has been written. *)
Definition with_report (p : Platform) (args : Args) (config : _Config)
    (w : World) : World :=
  {| files := <[report_path args := json_dump p (build_report config)]>
                (files w);
     requests_sent := requests_sent w |}.

(** The requests of the two user endpoints and of the CA endpoint. *)
Definition cert_request (auth : string) : string * list (string * string) :=
  ("https://cedar.mongodb.com/rest/v1/admin/users/certificate",
   [("data", auth)]).

Definition key_request (auth : string) : string * list (string * string) :=
  ("https://cedar.mongodb.com/rest/v1/admin/users/certificate/key",
   [("data", auth)]).

Definition ca_request : string * list (string * string) :=
  ("https://cedar.mongodb.com/rest/v1/admin/ca", []).

(** The three files of the certificate cache. *)
Definition pem_files : list string :=
  [ "cedar.user.crt"; "cedar.user.key"; "cedar.ca.pem" ].

(** The remote end answers the request with [body] and a status that
    [raise_for_status] accepts. *)
Definition accepted
    (requests_get : string -> list (string * string) -> result Response)
    (request : string * list (string * string)) (body : string) : Prop :=
  exists status,
    requests_get (fst request) (snd request)
    = Ok {| status_code := status; text := body |} /\
    ~ (400 <= status < 600).

(** The request fails with [e]: no answer arrives, or the answer has a 4xx
    or 5xx status. *)
Definition rejected
    (requests_get : string -> list (string * string) -> result Response)
    (request : string * list (string * string)) (e : exn) : Prop :=
  requests_get (fst request) (snd request) = Raise e \/
  exists resp,
    requests_get (fst request) (snd request) = Ok resp /\
    400 <= status_code resp < 600 /\ e = HTTPError (status_code resp).

End CedarUpload.

(* ===================================================================== *)
(** * Further concrete runs *)
(* ===================================================================== *)

Module MoreScenarios.
Import Py TestResultSummaryV2 CedarReport CedarUpload Scenarios.

(** The world after the metrics run of [platform_with]. *)
Definition after_metrics (w : World) : World :=
  {| files := <["/tmp/a.txt" := "metrics"]> (files w);
     requests_sent := requests_sent w |}.

(** A platform whose environment has every key, whose metrics run writes
    [/tmp/a.txt] and gives two file names, where a report can be written
    under [out/] only, whose remote end answers 200 and whose upload exits
    with the given status. *)
Definition platform_with (upload_status : Z) : Platform :=
  {| os_environ :=
       <["perf_jira_user" := "jane"]> (
       <["perf_jira_pw" := "pw"]> (env_with "task_7" "0" "true"));
     cedar_run := fun _ w =>
       (Ok (["/tmp/a.txt"; "/tmp/b.txt"], 90000000), after_metrics w);
     utcnow := 63700000000000000;
     open_report := fun path =>
       if String.prefix "out/" path then Ok tt else Raise OSError;
     json_dump := fun _ => "{report}";
     json_dumps_credentials := fun u pw => u +:+ ":" +:+ pw;
     requests_get := answering 200 "pem";
     subprocess_call := fun _ => Ok upload_status |}.

Definition default_args : Args :=
  {| args_test_name := None; output_dir := "out";
     report_file := "cedar_report.json" |}.

(** A world in which the three certificate files exist. *)
Definition warm_world : World :=
  {| files := <["cedar.user.crt" := "c"]> (
              <["cedar.user.key" := "k"]> (
              <["cedar.ca.pem" := "a"]> ∅));
     requests_sent := [] |}.

(** A directory [/data] with the given names where the tool cannot be
    started on [gone.ftdc], and where the output of [empty.ftdc] is [[]],
    that of [object.ftdc] is [{"Name": "ErrorRate"}] and that of
    [odd.ftdc] holds a record whose name is a list. *)
Definition other_host (names : list string) : Host :=
  {| os_listdir := fun d => if String.eqb d "/data" then Ok names
                            else Raise OSError;
     TestResultSummaryV2.subprocess_call := fun argv =>
       if existsb (String.eqb "/data/gone.ftdc") argv then Raise OSError
       else if existsb (String.eqb "/data/bad.ftdc") argv then Ok 1
       else Ok 0;
     json_load_path := fun p =>
       if String.eqb p "/tmp/run1.output" then Ok run1_output
       else if String.eqb p "/tmp/empty.output" then Ok (PyList [])
       else if String.eqb p "/tmp/object.output" then
         Ok (PyDict [("Name", PyStr "ErrorRate")])
       else if String.eqb p "/tmp/odd.output" then
         Ok (PyList [ PyDict [("Name", PyList [PyStr "ErrorRate"]);
                              ("Value", PyInt 1)] ])
       else Raise JSONDecodeError |}.

(** A remote end that cannot be reached. *)
Definition unreachable : string -> list (string * string) -> result Response :=
  fun _ _ => Raise ConnectionError.

End MoreScenarios.

(* ===================================================================== *)
(** * Properties: strings and dictionaries *)
(* ===================================================================== *)

Module PyFacts.
Import Py.

Lemma substring_all (s : string) : substring 0 (String.length s) s = s.
Proof. induction s as [|c s IH]; simpl; [reflexivity | now rewrite IH]. Qed.

Lemma substring_split (s : string) (n : nat) :
  (n <= String.length s)%nat ->
  substring 0 n s +:+ substring n (String.length s - n) s = s.
Proof.
  revert n. induction s as [|c s IH]; intros n Hn; simpl in *.
  - assert (n = 0%nat) as -> by lia. reflexivity.
  - destruct n as [|n]; simpl.
    + now rewrite substring_all.
    + change (String c (substring 0 n s
                          +:+ substring n (String.length s - n) s)
              = String c s).
      f_equal. apply IH. lia.
Qed.

(** A string that ends with [suffix] is its [s[:-k]] slice followed by
    [suffix]. *)
Lemma endswith_split (s suffix : string) :
  endswith s suffix = true ->
  s = slice_drop_last (String.length suffix) s +:+ suffix.
Proof.
  unfold endswith, slice_drop_last. intros H.
  apply andb_prop in H as [Hlen Heq].
  apply Nat.leb_le in Hlen. apply String.eqb_eq in Heq.
  set (n := (String.length s - String.length suffix)%nat) in *.
  pose proof (substring_split s n ltac:(lia)) as Hs.
  replace (String.length s - n)%nat with (String.length suffix) in Hs by lia.
  rewrite Heq in Hs. now symmetry.
Qed.

(** Distinct names with the same suffix have distinct base names. *)
Lemma slice_drop_last_inj (k : nat) (suffix s1 s2 : string) :
  String.length suffix = k ->
  endswith s1 suffix = true -> endswith s2 suffix = true ->
  slice_drop_last k s1 = slice_drop_last k s2 -> s1 = s2.
Proof.
  intros <- H1 H2 Heq.
  rewrite (endswith_split _ _ H1), (endswith_split _ _ H2).
  now rewrite Heq.
Qed.

Lemma list_ascii_app (a b : string) :
  list_ascii_of_string (a +:+ b)
  = (list_ascii_of_string a ++ list_ascii_of_string b)%list.
Proof. induction a as [|c a IH]; simpl; [reflexivity | now rewrite IH]. Qed.

Lemma list_ascii_inj (a b : string) :
  list_ascii_of_string a = list_ascii_of_string b -> a = b.
Proof.
  intros H. rewrite <- (string_of_list_ascii_of_string a),
    <- (string_of_list_ascii_of_string b). now rewrite H.
Qed.

Lemma append_inj_l (a b s : string) : a +:+ s = b +:+ s -> a = b.
Proof.
  intros H. apply list_ascii_inj.
  apply (f_equal list_ascii_of_string) in H.
  rewrite !list_ascii_app in H. now apply app_inv_tail in H.
Qed.

Lemma append_inj_r (s a b : string) : s +:+ a = s +:+ b -> a = b.
Proof.
  intros H. apply list_ascii_inj.
  apply (f_equal list_ascii_of_string) in H.
  rewrite !list_ascii_app in H. now apply app_inv_head in H.
Qed.

(** Splitting at a separator that the right parts do not contain is
    unambiguous. *)
Lemma split_at_last_unique (x : ascii) (l1 l2 r1 r2 : list ascii) :
  existsb (Ascii.eqb x) r1 = false -> existsb (Ascii.eqb x) r2 = false ->
  (l1 ++ x :: r1 = l2 ++ x :: r2)%list -> l1 = l2 /\ r1 = r2.
Proof.
  intros H1 H2. revert l2.
  induction l1 as [|a l1 IH]; intros [|b l2] Heq; simpl in *.
  - injection Heq as ->. split; reflexivity.
  - injection Heq as <- ->. exfalso.
    rewrite existsb_app in H1. simpl in H1.
    rewrite Ascii.eqb_refl, orb_true_r in H1. discriminate.
  - injection Heq as -> <-. exfalso.
    rewrite existsb_app in H2. simpl in H2.
    rewrite Ascii.eqb_refl, orb_true_r in H2. discriminate.
  - injection Heq as -> Heq. destruct (IH _ Heq) as [-> ->].
    split; reflexivity.
Qed.

Lemma dict_get_set_eq (k : string) (v : pyval) (d : dict) :
  dict_get k (dict_set k v d) = Some v.
Proof.
  induction d as [|[k' v'] d IH]; simpl.
  - now rewrite String.eqb_refl.
  - destruct (String.eqb k k') eqn:E; simpl; rewrite E;
      [reflexivity | exact IH].
Qed.

Lemma dict_get_set_ne (k k' : string) (v : pyval) (d : dict) :
  k <> k' -> dict_get k' (dict_set k v d) = dict_get k' d.
Proof.
  intros Hne. induction d as [|[k0 v0] d IH]; simpl.
  - destruct (String.eqb k' k) eqn:E; [|reflexivity].
    apply String.eqb_eq in E. congruence.
  - destruct (String.eqb k k0) eqn:E; simpl.
    + apply String.eqb_eq in E. subst k0.
      destruct (String.eqb k' k) eqn:E'; [|reflexivity].
      apply String.eqb_eq in E'. congruence.
    + now rewrite IH.
Qed.

(** Binding the same key twice keeps the later value only. *)
Lemma dict_set_set (k : string) (v1 v2 : pyval) (d : dict) :
  dict_set k v2 (dict_set k v1 d) = dict_set k v2 d.
Proof.
  induction d as [|[k0 v0] d IH]; simpl.
  - now rewrite String.eqb_refl.
  - destruct (String.eqb k k0) eqn:E; simpl; rewrite E; [reflexivity|].
    now rewrite IH.
Qed.

End PyFacts.

(* ===================================================================== *)
(** * Properties of test_result_summary_v2.py *)
(* ===================================================================== *)

Module RollupFacts.
Import Py PyFacts TestResultSummaryV2.

Lemma py_round3_number (v r : pyval) : py_round3 v = Ok r -> rounded_number r.
Proof. destruct v; simpl; intros H; inversion H; exact I. Qed.

Ltac field_case f s :=
  let E := fresh "E" in
  destruct (String.eqb f s) eqn:E;
  [ apply String.eqb_eq in E; subst f; simpl;
    eexists; split; [reflexivity | intros; reflexivity]
  | ].

(** The table of the program is the table of the specification: the same
    fourteen names, each with the conversion its divisor stands for. *)
Lemma table_get_spec (f : string) :
  match spec_divisor f with
  | Some d =>
      exists conv, table_get f FIELDS_TO_EXTRACT = Some conv /\
                   forall v, conv v = if d =? 1 then Ok v else py_truediv v d
  | None => table_get f FIELDS_TO_EXTRACT = None
  end.
Proof.
  field_case f "AverageLatency".
  field_case f "OperationThroughput".
  field_case f "ErrorRate".
  field_case f "Latency50thPercentile".
  field_case f "Latency80thPercentile".
  field_case f "Latency90thPercentile".
  field_case f "Latency95thPercentile".
  field_case f "Latency99thPercentile".
  field_case f "LatencyMin".
  field_case f "LatencyMax".
  field_case f "DurationTotal".
  field_case f "ErrorsTotal".
  field_case f "OperationsTotal".
  field_case f "DocumentsTotal".
  unfold spec_divisor, spec_latency_fields, spec_passthrough_fields,
    FIELDS_TO_EXTRACT.
  simpl. rewrite E, E0, E1, E2, E3, E4, E5, E6, E7, E8, E9, E10, E11, E12.
  reflexivity.
Qed.

Lemma fields_lookup_str (f : string) :
  fields_lookup (PyStr f)
  = Ok (match table_get f FIELDS_TO_EXTRACT with
        | Some conv => Some (f, conv)
        | None => None
        end).
Proof. reflexivity. Qed.

(** [1234567 / 1_000_000] rounds to [1.235]; [round] breaks the exact tie
    [0.125] towards the even digit and keeps the sign of a zero. *)
Example round_examples :
  (x <- py_truediv (PyInt 1234567) 1000000 ;; py_round3 x)
  = Ok (PyFloat (S754_finite false 5561945539802563 (-52))) /\
  float_round (S754_finite false 1 (-3)) 2
  = S754_finite false 8646911284551352 (-56) /\
  (x <- py_truediv (PyInt (-1)) 1000000 ;; py_round3 x)
  = Ok (PyFloat (S754_zero true)) /\
  py_round3 (PyInt 5) = Ok (PyInt 5) /\
  py_truediv (PyInt (10 ^ 400)) 1000000 = Raise OverflowError.
Proof. vm_compute. repeat split. Qed.

Lemma table_has_fourteen_fields : length FIELDS_TO_EXTRACT = 14%nat.
Proof. reflexivity. Qed.

(** On a record with a recognized name the loop body converts, rounds and
    stores. *)
Lemma extract_item_recognized (filtered : dict) (item v : pyval)
    (f : string) (d : Z) :
  py_get item "Name" = Ok (PyStr f) ->
  py_get item "Value" = Ok v ->
  spec_divisor f = Some d ->
  extract_item filtered item
  = (r <- spec_round_div v d ;; Ok (dict_set f r filtered)).
Proof.
  intros Hname Hvalue Hd. unfold extract_item, spec_round_div.
  rewrite Hname. cbn [bind]. rewrite fields_lookup_str.
  pose proof (table_get_spec f) as Ht. rewrite Hd in Ht.
  destruct Ht as (conv & -> & Hconv). cbn [bind].
  rewrite Hvalue. cbn [bind]. rewrite Hconv.
  destruct (if d =? 1 then Ok v else py_truediv v d); reflexivity.
Qed.

(** On a record with a hashable name outside the table the loop body does
    nothing. *)
Lemma extract_item_unrecognized (filtered : dict) (item name : pyval) :
  py_get item "Name" = Ok name ->
  py_hashable name = true ->
  recognized name = false ->
  extract_item filtered item = Ok filtered.
Proof.
  intros Hname Hhash Hrec. unfold extract_item. rewrite Hname. cbn [bind].
  destruct name; try (unfold fields_lookup; rewrite Hhash; reflexivity).
  rewrite fields_lookup_str.
  cbn [recognized] in Hrec. pose proof (table_get_spec s) as Ht.
  destruct (spec_divisor s); [discriminate|]. now rewrite Ht.
Qed.

(** What one pass of the loop can do to [filtered]. *)
Lemma extract_item_inv (filtered filtered' : dict) (item : pyval) :
  extract_item filtered item = Ok filtered' ->
  filtered' = filtered \/
  exists f r, py_get item "Name" = Ok (PyStr f) /\
              recognized (PyStr f) = true /\ rounded_number r /\
              filtered' = dict_set f r filtered.
Proof.
  unfold extract_item.
  destruct (py_get item "Name") as [name|]; cbn [bind]; [|discriminate].
  destruct name;
    try (unfold fields_lookup;
         match goal with |- context [py_hashable ?n] =>
           destruct (py_hashable n) end;
         cbn [bind]; intros H; inversion H; now left).
  rewrite fields_lookup_str.
  pose proof (table_get_spec s) as Ht.
  destruct (spec_divisor s) as [d|] eqn:Hd.
  - destruct Ht as (conv & -> & _). cbn [bind].
    destruct (py_get item "Value") as [v|]; cbn [bind]; [|discriminate].
    destruct (conv v) as [c|]; cbn [bind]; [|discriminate].
    destruct (py_round3 c) as [r|] eqn:Hr; cbn [bind]; [|discriminate].
    intros H. inversion H. right. exists s, r.
    repeat split; try reflexivity.
    + cbn [recognized]. now rewrite Hd.
    + eapply py_round3_number; eassumption.
  - rewrite Ht. cbn [bind]. intros H. inversion H. now left.
Qed.

Lemma extract_items_app (filtered : dict) (items1 items2 : list pyval) :
  extract_items filtered (items1 ++ items2)
  = (filtered' <- extract_items filtered items1 ;;
     extract_items filtered' items2).
Proof.
  revert filtered. induction items1 as [|item items1 IH]; intros; simpl.
  - reflexivity.
  - destruct (extract_item filtered item); simpl; [apply IH | reflexivity].
Qed.

(** Records named otherwise leave the entry of [f] alone. *)
Lemma extract_items_other_names (f : string) (items : list pyval) :
  (forall it, In it items -> py_get it "Name" <> Ok (PyStr f)) ->
  forall filtered filtered',
    extract_items filtered items = Ok filtered' ->
    dict_get f filtered' = dict_get f filtered.
Proof.
  induction items as [|item items IH]; intros Hnames filtered filtered' H;
    simpl in H.
  - now inversion H.
  - destruct (extract_item filtered item) as [f1|] eqn:Hstep; simpl in H;
      [|discriminate].
    rewrite (IH (fun it Hin => Hnames it (or_intror Hin)) _ _ H).
    destruct (extract_item_inv _ _ _ Hstep) as [->|(g & r & Hg & _ & _ & ->)];
      [reflexivity|].
    apply dict_get_set_ne. intros ->.
    exact (Hnames item (or_introl eq_refl) Hg).
Qed.

(** Every entry of a per-file record is a recognized name bound to a rounded
    number, apart from the entries the record started with. *)
Lemma extract_items_entries (items : list pyval) :
  forall filtered filtered',
    extract_items filtered items = Ok filtered' ->
    forall k x, dict_get k filtered' = Some x ->
      dict_get k filtered = Some x \/
      (recognized (PyStr k) = true /\ rounded_number x).
Proof.
  induction items as [|item items IH]; intros filtered filtered' H k x Hk;
    simpl in H.
  - inversion H. subst. now left.
  - destruct (extract_item filtered item) as [f1|] eqn:Hstep; simpl in H;
      [|discriminate].
    destruct (IH _ _ H _ _ Hk) as [Hin|Hnew]; [|now right].
    destruct (extract_item_inv _ _ _ Hstep) as [->|(g & r & _ & Hg & Hr & ->)];
      [now left|].
    destruct (String.eqb g k) eqn:E.
    + apply String.eqb_eq in E. subst g.
      rewrite dict_get_set_eq in Hin. inversion Hin. subst. now right.
    + apply String.eqb_neq in E. rewrite dict_get_set_ne in Hin by exact E.
      now left.
Qed.

(** An item on which the loop body raises ends the extraction of the whole
    file, wherever it stands. *)
Lemma extract_items_raises (item : pyval) (items : list pyval) :
  In item items ->
  (forall filtered, exists e, extract_item filtered item = Raise e) ->
  forall filtered, exists e, extract_items filtered items = Raise e.
Proof.
  intros Hin Hbad. induction items as [|it items IH]; [contradiction|].
  intros filtered. simpl.
  destruct Hin as [->|Hin].
  - destruct (Hbad filtered) as [e ->]. now exists e.
  - destruct (extract_item filtered it) as [f1|e]; cbn [bind].
    + apply IH, Hin.
    + now exists e.
Qed.

Section Batch.
Variable h : Host.
Variables ftdc_dir curator_path : string.

Let capture := process_capture h ftdc_dir curator_path.
Let loop := process_loop h ftdc_dir curator_path.

(** A capture that is extracted is filed under its base name. *)
Lemma extracted_base_name (filename b : string) (filtered : dict) :
  capture filename = Extracted b filtered ->
  b = slice_drop_last 5 filename /\
  exists output_data,
    json_load_path h (output_path_of b) = Ok output_data /\
    filter_output output_data = Ok filtered.
Proof.
  unfold capture, process_capture.
  destruct (subprocess_run_check h _) as [[]|e]; [|destruct e; discriminate].
  destruct (json_load_path h _) as [output_data|e] eqn:Hload; cbn [bind];
    [|discriminate].
  destruct (filter_output output_data) as [filtered'|e] eqn:Hf; [|discriminate].
  intros H. inversion H. subst. split; [reflexivity|].
  exists output_data. now split.
Qed.

(** A failing capture is skipped with a diagnostic. *)
Lemma failing_capture_skipped (filename : string) :
  capture_fails h ftdc_dir curator_path filename ->
  exists line, capture filename = Skipped line.
Proof.
  unfold capture, process_capture, subprocess_run_check.
  intros [(code & Hcode & ->)|(-> & e & ->)]; cbn [bind].
  - apply Z.eqb_neq in Hcode. rewrite Hcode. eauto.
  - simpl. eauto.
Qed.

(** The lines already printed do not influence the rest of the loop. *)
Lemma loop_stdout (names : list string) (result_map0 : dict)
    (out : list output_line) :
  loop names result_map0 out
  = {| result_map := result_map (loop names result_map0 []);
       stdout := (out ++ stdout (loop names result_map0 []))%list;
       raised := raised (loop names result_map0 []) |}.
Proof.
  revert result_map0 out. unfold loop.
  induction names as [|g names IH]; intros rm out; simpl.
  - now rewrite app_nil_r.
  - destruct (endswith g ".ftdc"); simpl; [|apply IH].
    destruct (process_capture h ftdc_dir curator_path g).
    + rewrite (IH rm (out ++ [diagnostic])%list), (IH rm [diagnostic]).
      simpl. now rewrite <- app_assoc.
    + apply IH.
    + simpl. now rewrite app_nil_r.
Qed.

(** Dropping a skipped capture from the listing changes neither the
    aggregate mapping nor the way the loop ends. *)
Lemma loop_without_skipped (f : string) (line : output_line)
    (names : list string) :
  capture f = Skipped line ->
  forall result_map0,
    let full := loop names result_map0 [] in
    let rest := loop (List.filter (fun g => negb (String.eqb g f)) names)
                     result_map0 [] in
    result_map full = result_map rest /\ raised full = raised rest.
Proof.
  intros Hskip. unfold loop, capture in *.
  induction names as [|g names IH]; intros rm; simpl.
  - now split.
  - destruct (String.eqb g f) eqn:E; simpl.
    + apply String.eqb_eq in E. subst g.
      destruct (endswith f ".ftdc"); simpl; [|apply IH].
      rewrite Hskip. fold loop. rewrite loop_stdout. simpl. apply IH.
    + destruct (endswith g ".ftdc"); simpl; [|apply IH].
      destruct (process_capture h ftdc_dir curator_path g).
      * fold loop. rewrite (loop_stdout names), (loop_stdout (List.filter _ _)).
        simpl. apply IH.
      * apply IH.
      * now split.
Qed.

(** Every key of the aggregate mapping was there at the start or is the base
    name of an extracted capture, bound to that capture's record. *)
Lemma loop_entries (names : list string) :
  forall result_map0 out b x,
    dict_get b (result_map (loop names result_map0 out)) = Some x ->
    dict_get b result_map0 = Some x \/
    exists filename filtered,
      In filename names /\ endswith filename ".ftdc" = true /\
      capture filename = Extracted b filtered /\ x = PyDict filtered.
Proof.
  unfold loop, capture.
  induction names as [|g names IH]; intros rm out b x H; simpl in H.
  - now left.
  - destruct (endswith g ".ftdc") eqn:Hg; simpl in H.
    + destruct (process_capture h ftdc_dir curator_path g) as [l|b' fl|e]
        eqn:Hc.
      * destruct (IH _ _ _ _ H) as [?|(fn & fl & ? & ? & ? & ?)];
          [now left|right]. exists fn, fl. simpl. auto.
      * destruct (IH _ _ _ _ H) as [Hin|(fn & fl' & ? & ? & ? & ?)].
        -- destruct (String.eqb b' b) eqn:E.
           ++ apply String.eqb_eq in E. subst b'.
              rewrite dict_get_set_eq in Hin. inversion Hin. subst x.
              right. exists g, fl. simpl. auto.
           ++ apply String.eqb_neq in E.
              rewrite dict_get_set_ne in Hin by exact E. now left.
        -- right. exists fn, fl'. simpl. auto.
      * simpl in H. now left.
    + destruct (IH _ _ _ _ H) as [?|(fn & fl & ? & ? & ? & ?)];
        [now left|right]. exists fn, fl. simpl. auto.
Qed.

(** A loop that runs to its end has filed every extracted capture. *)
Lemma loop_complete (names : list string) :
  forall result_map0 out filename b filtered,
    raised (loop names result_map0 out) = None ->
    endswith filename ".ftdc" = true ->
    capture filename = Extracted b filtered ->
    In filename names \/ dict_get b result_map0 = Some (PyDict filtered) ->
    dict_get b (result_map (loop names result_map0 out))
    = Some (PyDict filtered).
Proof.
  unfold loop, capture.
  induction names as [|g names IH];
    intros rm out filename b filtered Hend Hf Hc Hin; simpl in *.
  - destruct Hin as [[]|Hin]. exact Hin.
  - destruct (endswith g ".ftdc") eqn:Hg; simpl in *.
    + destruct (process_capture h ftdc_dir curator_path g) as [l|b' fl|e]
        eqn:Hcg.
      * eapply IH; eauto. destruct Hin as [[->|Hin]|Hin]; auto. congruence.
      * eapply IH; eauto. destruct Hin as [[->|Hin]|Hin]; auto.
        -- right. rewrite Hcg in Hc. inversion Hc. subst.
           apply dict_get_set_eq.
        -- right. destruct (String.eqb g filename) eqn:E.
           ++ apply String.eqb_eq in E. subst g. rewrite Hcg in Hc.
              inversion Hc. subst. apply dict_get_set_eq.
           ++ apply String.eqb_neq in E.
              rewrite dict_get_set_ne; [exact Hin|].
              intros ->. apply E.
              apply extracted_base_name in Hcg as [Hb' _].
              apply extracted_base_name in Hc as [Hb _].
              apply (slice_drop_last_inj 5 ".ftdc"); auto. congruence.
      * discriminate.
    + eapply IH; eauto. destruct Hin as [[->|Hin]|Hin]; auto. congruence.
Qed.

(** The loop runs to its end when every capture's subprocess starts. *)
Lemma loop_not_raised (names : list string) :
  (forall f, In f names -> endswith f ".ftdc" = true ->
     exists code,
       subprocess_call h (curator_argv ftdc_dir curator_path f) = Ok code) ->
  forall result_map0 out, raised (loop names result_map0 out) = None.
Proof.
  unfold loop.
  induction names as [|g names IH]; intros Hstart rm out; simpl.
  - reflexivity.
  - assert (Hrest : forall f, In f names -> endswith f ".ftdc" = true ->
              exists code,
                subprocess_call h (curator_argv ftdc_dir curator_path f)
                = Ok code)
      by (intros f Hin; apply Hstart; now right).
    destruct (endswith g ".ftdc") eqn:Hg; simpl; [|now apply IH].
    destruct (Hstart g (or_introl eq_refl) Hg) as [code Hcode].
    unfold process_capture, subprocess_run_check. rewrite Hcode. cbn [bind].
    destruct (code =? 0).
    + destruct (bind _ _); now apply IH.
    + now apply IH.
Qed.

End Batch.

(** Removing a capture from the listing does not change what happens to the
    others. *)
Lemma process_loop_without_capture (f : string) (h : Host)
    (ftdc_dir curator_path : string) (names : list string) :
  forall result_map0 out,
    process_loop (without_capture f h) ftdc_dir curator_path names
      result_map0 out
    = process_loop h ftdc_dir curator_path names result_map0 out.
Proof.
  induction names as [|g names IH]; intros rm out; simpl; [reflexivity|].
  destruct (endswith g ".ftdc"); simpl; [|apply IH].
  change (process_capture (without_capture f h) ftdc_dir curator_path g)
    with (process_capture h ftdc_dir curator_path g).
  destruct (process_capture h ftdc_dir curator_path g); try apply IH.
  reflexivity.
Qed.

Lemma printed_mapping_dump (out : list output_line) (m : pyval) :
  printed_mapping ((out ++ [JsonDump m])%list, Ok PyNone) = Some m.
Proof. unfold printed_mapping. simpl. now rewrite last_snoc. Qed.

End RollupFacts.

(* ===================================================================== *)
(** * The rollup extractor and aggregator: main results *)
(* ===================================================================== *)

Module RollupResults.
Import Py PyFacts TestResultSummaryV2 RollupFacts Scenarios.
Import RoundingScenarios.

(** The divisors of the table. *)
Lemma spec_divisor_values (f : string) (d : Z) :
  spec_divisor f = Some d -> d = 1000000 \/ d = 1000000000 \/ d = 1.
Proof.
  unfold spec_divisor.
  destruct (existsb _ spec_latency_fields); [intros H; inversion H; auto|].
  destruct (String.eqb f "DurationTotal"); [intros H; inversion H; auto|].
  destruct (existsb _ spec_passthrough_fields); [intros H; inversion H; auto|].
  discriminate.
Qed.

(** On a number, [round(v / d, 3)] has a value unless the division
    overflows the floats. *)
Lemma spec_round_div_number (v : pyval) (d : Z) :
  is_number v = true ->
  d = 1000000 \/ d = 1000000000 \/ d = 1 ->
  (exists r, spec_round_div v d = Ok r) \/
  spec_round_div v d = Raise OverflowError.
Proof.
  intros Hnum Hd. unfold spec_round_div.
  destruct Hd as [-> | [-> | ->]]; cbn [Z.eqb Pos.eqb];
    destruct v as [| t | a | x | | | | |]; try discriminate;
    cbn [py_truediv bind py_round3]; eauto.
  all: try (destruct t; vm_compute; eauto).
  all: try (unfold int_truediv; cbn [Z.eqb];
            destruct (a =? 0); cbn [bind py_round3]; eauto;
            destruct (SFdiv _ _ _ _); cbn [bind py_round3]; eauto).
  all: unfold float_truediv;
       match goal with |- context [int_to_float ?n] =>
         let y := eval vm_compute in (int_to_float n) in
         change (int_to_float n) with y
       end; cbn [bind py_round3]; eauto.
Qed.

(** ** C1, as the claim has it, fails.  The numeric raw value [10 ** 330]
    appears with the name [AverageLatency] in the output of [huge.ftdc]:
    the division raises [OverflowError], nothing is stored under
    [AverageLatency], the [ErrorsTotal] already converted is lost with it and
    the capture has no entry in the aggregate mapping.  And of two records
    with the name [AverageLatency] only the later value is in the finished
    record: the rounded [1.0] of the earlier one is not. *)
Lemma numeric_value_is_not_always_stored :
  (spec_divisor "AverageLatency" = Some 1000000 /\
   is_number (PyInt (10 ^ 330)) = true /\
   filter_output huge_output = Raise OverflowError /\
   process_ftdc_files huge_host "/data" "/opt"
   = ([ErrorReadingOutput "huge.ftdc" OverflowError; JsonDump (PyDict [])],
      Ok PyNone)) /\
  (spec_round_div (PyInt 1000000) 1000000 = Ok (PyFloat one) /\
   filter_output repeated_output = Ok [("AverageLatency", PyFloat two)] /\
   PyFloat one <> PyFloat two).
Proof.
  split; [repeat split; vm_compute; reflexivity|].
  split; [vm_compute; reflexivity|].
  split; [vm_compute; reflexivity | discriminate].
Qed.

(** ** C1, amended.  For a recognized field [f] with divisor [d] and a
    record of the tool output with [Name] [f] and a numeric [Value] [v]:
    [round(v / d, 3)] (the identity conversion for [d = 1]) has a value
    unless the division overflows the floats; when it has one, the loop body
    stores it under key [f] of the per-file record, and the finished record
    of the file holds it under [f] provided the extraction of the file
    raises nothing and no later record has the same name (the last record of
    a name wins); when the division overflows, every output holding the
    record raises and the capture is excluded.  The values stored are those
    Python computes: each line of [python_rounded_values] (inexact
    quotients, ties, negative values, floats, a boolean, integers beyond
    [2 ** 53], both divisors and the pass-through fields) is what the loop
    body stores.  The capture [run1.ftdc] with the output
    [[{"Name":"AverageLatency","Value":2000000},{"Name":"Unused","Value":5}]]
    yields the aggregate entry [{"run1": {"AverageLatency": 2.0}}]. *)
Theorem recognized_value_converted_and_rounded :
  (forall (f : string) (d : Z) (v item : pyval),
     spec_divisor f = Some d ->
     py_get item "Name" = Ok (PyStr f) ->
     py_get item "Value" = Ok v ->
     is_number v = true ->
     ((exists r, spec_round_div v d = Ok r) \/
      spec_round_div v d = Raise OverflowError) /\
     (forall r, spec_round_div v d = Ok r ->
        (forall filtered,
           extract_item filtered item = Ok (dict_set f r filtered)) /\
        (forall before after filtered,
           (forall it, In it after -> py_get it "Name" <> Ok (PyStr f)) ->
           filter_output (PyList (before ++ item :: after)) = Ok filtered ->
           dict_get f filtered = Some r)) /\
     (spec_round_div v d = Raise OverflowError ->
      forall items, In item items ->
        exists e, filter_output (PyList items) = Raise e)) /\
  Forall (fun '(f, v, r) =>
            extract_item [] (PyDict [("Name", PyStr f); ("Value", v)])
            = Ok [(f, r)])
         python_rounded_values /\
  process_ftdc_files run1_host "/data" "/opt"
  = ([JsonDump (PyDict [("run1", PyDict [("AverageLatency", PyFloat two)])])],
     Ok PyNone).
Proof.
  split; [|split; [|reflexivity]].
  2: { unfold python_rounded_values.
       repeat (constructor; [vm_compute; reflexivity|]). constructor. }
  intros f d v item Hd Hname Hvalue Hnum. split; [|split].
  - apply spec_round_div_number; [exact Hnum|].
    eapply spec_divisor_values; eassumption.
  - intros r Hr.
    assert (Hstep : forall filtered,
               extract_item filtered item = Ok (dict_set f r filtered)).
    { intros filtered.
      rewrite (extract_item_recognized filtered item v f d Hname Hvalue Hd).
      now rewrite Hr. }
    split; [exact Hstep|].
    intros before after filtered Hlast H.
    unfold filter_output in H. cbn [py_iter bind] in H.
    rewrite extract_items_app in H.
    destruct (extract_items [] before) as [f0|]; cbn [bind] in H;
      [|discriminate].
    simpl in H. rewrite Hstep in H. cbn [bind] in H.
    rewrite (extract_items_other_names f after Hlast _ _ H).
    apply dict_get_set_eq.
  - intros Hover items Hin. unfold filter_output. cbn [py_iter bind].
    apply (extract_items_raises item items Hin).
    intros filtered. exists OverflowError.
    rewrite (extract_item_recognized filtered item v f d Hname Hvalue Hd).
    now rewrite Hover.
Qed.

(** The statement at the record of the scenario. *)
Lemma recognized_value_converted_and_rounded_witness :
  spec_divisor "AverageLatency" = Some 1000000 /\
  dict_get "AverageLatency" [("AverageLatency", PyFloat two)]
  = Some (PyFloat two).
Proof.
  split; [reflexivity|].
  pose (item := PyDict [("Name", PyStr "AverageLatency");
                        ("Value", PyInt 2000000)]).
  pose (unused := PyDict [("Name", PyStr "Unused"); ("Value", PyInt 5)]).
  destruct (proj1 recognized_value_converted_and_rounded
              "AverageLatency" 1000000 (PyInt 2000000) item
              ltac:(reflexivity) ltac:(reflexivity) ltac:(reflexivity)
              ltac:(reflexivity)) as (_ & H & _).
  destruct (H (PyFloat two) ltac:(reflexivity)) as [_ Hfile].
  apply (Hfile [] [unused]).
  - intros it [<-|[]]. discriminate.
  - reflexivity.
Defined.

(** A failing capture leaves no key in the aggregate mapping of any run. *)
Lemma skipped_capture_has_no_key (h : Host) (ftdc_dir curator_path f : string)
    (line : output_line) (names : list string) (out : list output_line) :
  endswith f ".ftdc" = true ->
  process_capture h ftdc_dir curator_path f = Skipped line ->
  dict_get (slice_drop_last 5 f)
    (result_map (process_loop h ftdc_dir curator_path names [] out)) = None.
Proof.
  intros Hend Hskip.
  destruct (dict_get _ _) as [x|] eqn:Hget; [exfalso|reflexivity].
  apply loop_entries in Hget as [Hget|(g & fl & _ & Hg & Hc & _)];
    [discriminate|].
  pose proof (extracted_base_name _ _ _ _ _ _ Hc) as [Hb _].
  assert (g = f) as ->
    by (apply (slice_drop_last_inj 5 ".ftdc"); auto).
  congruence.
Qed.

(** ** C3.  A capture on which the tool exits with a non-zero status, or
    whose output cannot be read, parsed or filtered, contributes no key to
    the aggregate mapping, and the run behaves as if the capture were not in
    the directory: it ends the same way (the failure aborts nothing) and
    prints the same aggregate mapping, so the record of every other capture
    is what it would be without the failing one. *)
Theorem failing_capture_is_isolated
    (h : Host) (ftdc_dir curator_path f : string) :
  endswith f ".ftdc" = true ->
  capture_fails h ftdc_dir curator_path f ->
  let run := process_ftdc_files h ftdc_dir curator_path in
  let run_without :=
    process_ftdc_files (without_capture f h) ftdc_dir curator_path in
  snd run = snd run_without /\
  printed_mapping run = printed_mapping run_without /\
  forall m, printed_mapping run = Some (PyDict m) ->
            dict_get (slice_drop_last 5 f) m = None.
Proof.
  intros Hend Hfail.
  destruct (failing_capture_skipped _ _ _ _ Hfail) as [line Hskip].
  unfold process_ftdc_files. cbn [without_capture os_listdir].
  destruct (os_listdir h ftdc_dir) as [names|e]; cbn [bind].
  2: { repeat split; try reflexivity. intros m H. discriminate. }
  rewrite process_loop_without_capture.
  destruct (loop_without_skipped h ftdc_dir curator_path f line names Hskip [])
    as [Hmap Hraised].
  cbv zeta in Hmap, Hraised. rewrite <- Hraised, <- Hmap.
  destruct (raised _) as [e|] eqn:Hr.
  - repeat split; try reflexivity. intros m H. discriminate.
  - rewrite !printed_mapping_dump. repeat split; try reflexivity.
    intros m H. inversion H. subst m.
    eapply skipped_capture_has_no_key; eassumption.
Qed.

(** The mixed batch of [bad.ftdc] (the tool exits with 1) and [run1.ftdc]. *)
Lemma failing_capture_is_isolated_witness :
  printed_mapping (process_ftdc_files mixed_host "/data" "/opt")
  = printed_mapping
      (process_ftdc_files (without_capture "bad.ftdc" mixed_host)
         "/data" "/opt").
Proof.
  refine (proj1 (proj2 (failing_capture_is_isolated
                          mixed_host "/data" "/opt" "bad.ftdc" _ _))).
  - reflexivity.
  - left. exists 1. split; [lia | reflexivity].
Defined.

(** ** C4.  A record whose [Name] is hashable (a string, a number, a boolean
    or absent) and not one of the fourteen recognized names is passed over
    without an error: the loop body leaves the per-file record as it is, the
    file is extracted exactly as if the record were not in the output, and no
    per-file record has an entry for that name. *)
Theorem unrecognized_name_is_dropped (item name : pyval) :
  py_get item "Name" = Ok name ->
  py_hashable name = true ->
  recognized name = false ->
  (forall filtered, extract_item filtered item = Ok filtered) /\
  (forall before after,
     filter_output (PyList (before ++ item :: after))
     = filter_output (PyList (before ++ after))) /\
  (forall f output_data filtered,
     name = PyStr f -> filter_output output_data = Ok filtered ->
     dict_get f filtered = None).
Proof.
  intros Hname Hhash Hrec.
  assert (Hstep : forall filtered, extract_item filtered item = Ok filtered)
    by (intros; eapply extract_item_unrecognized; eassumption).
  split; [exact Hstep|]. split.
  - intros before after. unfold filter_output. cbn [py_iter bind].
    rewrite !extract_items_app.
    destruct (extract_items [] before) as [f0|]; cbn [bind]; [|reflexivity].
    simpl. now rewrite Hstep.
  - intros f output_data filtered -> H.
    unfold filter_output in H.
    destruct (py_iter output_data) as [items|]; cbn [bind] in H;
      [|discriminate].
    destruct (dict_get f filtered) as [x|] eqn:Hget; [exfalso|reflexivity].
    destruct (extract_items_entries _ _ _ H _ _ Hget) as [Hin|[Hf _]].
    + discriminate.
    + congruence.
Qed.

(** The record [{"Name":"Unused","Value":5}] of the scenario. *)
Lemma unrecognized_name_is_dropped_witness :
  filter_output run1_output
  = filter_output
      (PyList [PyDict [("Name", PyStr "AverageLatency");
                       ("Value", PyInt 2000000)]]).
Proof.
  exact (proj1 (proj2 (unrecognized_name_is_dropped
                         (PyDict [("Name", PyStr "Unused"); ("Value", PyInt 5)])
                         (PyStr "Unused")
                         ltac:(reflexivity) ltac:(reflexivity)
                         ltac:(reflexivity)))
           [PyDict [("Name", PyStr "AverageLatency");
                    ("Value", PyInt 2000000)]] []).
Defined.

(** ** C5, as the claim has it, fails: on the capture of the scenario the
    function prints the aggregate mapping and returns [None], which is not
    that mapping. *)
Lemma process_returns_none :
  let aggregate :=
    PyDict [("run1", PyDict [("AverageLatency", PyFloat two)])] in
  process_ftdc_files run1_host "/data" "/opt"
  = ([JsonDump aggregate], Ok PyNone) /\
  snd (process_ftdc_files run1_host "/data" "/opt") <> Ok aggregate.
Proof. split; [reflexivity | discriminate]. Qed.

(** ** C5, amended.  When the directory can be listed and the subprocess of
    every capture starts, [process_ftdc_files] returns [None] and the last
    thing it prints is the aggregate mapping: a key is bound exactly when it
    is the name, without [.ftdc], of a listed capture whose extraction went
    through, and it is bound to the record of that capture alone, whose
    entries are recognized field names with rounded numbers. *)
Theorem process_prints_aggregate_mapping
    (h : Host) (ftdc_dir curator_path : string) (names : list string) :
  os_listdir h ftdc_dir = Ok names ->
  (forall f, In f names -> endswith f ".ftdc" = true ->
     exists code,
       subprocess_call h (curator_argv ftdc_dir curator_path f) = Ok code) ->
  exists diagnostics m,
    process_ftdc_files h ftdc_dir curator_path
    = ((diagnostics ++ [JsonDump (PyDict m)])%list, Ok PyNone) /\
    (forall b x,
       dict_get b m = Some x <->
       exists filename filtered,
         In filename names /\ endswith filename ".ftdc" = true /\
         b = slice_drop_last 5 filename /\
         process_capture h ftdc_dir curator_path filename
         = Extracted b filtered /\
         x = PyDict filtered) /\
    (forall filename b filtered,
       process_capture h ftdc_dir curator_path filename
       = Extracted b filtered ->
       forall k y, dict_get k filtered = Some y ->
                   recognized (PyStr k) = true /\ rounded_number y).
Proof.
  intros Hlist Hstart. unfold process_ftdc_files. rewrite Hlist.
  pose proof (loop_not_raised h ftdc_dir curator_path names Hstart [] [])
    as Hraised.
  rewrite Hraised.
  exists (stdout (process_loop h ftdc_dir curator_path names [] [])),
         (result_map (process_loop h ftdc_dir curator_path names [] [])).
  split; [reflexivity|]. split.
  - intros b x. split.
    + intros Hget.
      apply loop_entries in Hget as [Hget|(g & fl & Hin & Hg & Hc & ->)];
        [discriminate|].
      exists g, fl. repeat split; auto.
      now apply extracted_base_name in Hc as [-> _].
    + intros (g & fl & Hin & Hg & _ & Hc & ->).
      eapply loop_complete; eauto.
  - intros filename b filtered Hc k y Hget.
    apply extracted_base_name in Hc as [_ (data & _ & Hf)].
    unfold filter_output in Hf.
    destruct (py_iter data) as [items|]; cbn [bind] in Hf; [|discriminate].
    destruct (extract_items_entries _ _ _ Hf _ _ Hget) as [Hin|Hnew];
      [discriminate | exact Hnew].
Qed.

(** The directory of the mixed batch. *)
Lemma process_prints_aggregate_mapping_witness :
  exists diagnostics m,
    process_ftdc_files mixed_host "/data" "/opt"
    = ((diagnostics ++ [JsonDump (PyDict m)])%list, Ok PyNone).
Proof.
  destruct (process_prints_aggregate_mapping mixed_host "/data" "/opt"
              ["bad.ftdc"; "notes.txt"; "run1.ftdc"] ltac:(reflexivity))
    as (diagnostics & m & H & _).
  - intros f _ _. unfold mixed_host, host_with. cbn [subprocess_call].
    match goal with |- context [if ?b then _ else _] => destruct b end; eauto.
  - exists diagnostics, m. exact H.
Defined.

(** On a value that is not a number the conversion and rounding of a
    recognized field raise. *)
Lemma spec_round_div_not_number (v : pyval) (d : Z) :
  is_number v = false -> exists e, spec_round_div v d = Raise e.
Proof.
  intros Hnum. unfold spec_round_div.
  destruct v; try discriminate; destruct (d =? 1); simpl; eauto.
Qed.

(** ** C10.  When the tool succeeds on a capture and its parsed output holds
    a record with a recognized [Name] whose [Value] is missing ([None]) or
    not a number (not an [int], a [float] or a [bool], which Python counts
    among the [int]s), the whole capture is skipped with a diagnostic,
    whatever the other records are, and the aggregate mapping has no key for
    it: no partial record is kept. *)
Theorem bad_value_excludes_whole_capture
    (h : Host) (ftdc_dir curator_path filename : string)
    (items : list pyval) (item v : pyval) (f : string) :
  endswith filename ".ftdc" = true ->
  subprocess_call h (curator_argv ftdc_dir curator_path filename) = Ok 0 ->
  json_load_path h (output_path_of (slice_drop_last 5 filename))
  = Ok (PyList items) ->
  In item items ->
  py_get item "Name" = Ok (PyStr f) ->
  recognized (PyStr f) = true ->
  py_get item "Value" = Ok v ->
  is_number v = false ->
  (exists e, process_capture h ftdc_dir curator_path filename
             = Skipped (ErrorReadingOutput filename e)) /\
  forall m,
    printed_mapping (process_ftdc_files h ftdc_dir curator_path)
    = Some (PyDict m) ->
    dict_get (slice_drop_last 5 filename) m = None.
Proof.
  intros Hend Hrun Hload Hin Hname Hrec Hvalue Hnum.
  assert (Hskip : exists e, process_capture h ftdc_dir curator_path filename
                            = Skipped (ErrorReadingOutput filename e)).
  { unfold process_capture, subprocess_run_check.
    rewrite Hrun, Hload. cbn [bind Z.eqb].
    unfold filter_output. cbn [py_iter bind].
    destruct (extract_items_raises item items Hin)
      with (filtered := @nil (string * pyval)) as [e ->]; [|eauto].
    intros filtered. cbn [recognized] in Hrec.
    destruct (spec_divisor f) as [d|] eqn:Hd; [|discriminate].
    rewrite (extract_item_recognized filtered item v f d Hname Hvalue Hd).
    destruct (spec_round_div_not_number v d Hnum) as [e ->]. now exists e. }
  split; [exact Hskip|].
  destruct Hskip as [e Hskip].
  intros m. unfold process_ftdc_files.
  destruct (os_listdir h ftdc_dir) as [names|]; [|discriminate].
  destruct (raised _) eqn:Hr; [discriminate|].
  rewrite printed_mapping_dump. intros H. inversion H. subst m.
  eapply skipped_capture_has_no_key; eassumption.
Qed.

(** The capture [text.ftdc]: [ErrorsTotal] converts, then [LatencyMax] has a
    string for a value. *)
Lemma bad_value_excludes_whole_capture_witness :
  exists e,
    process_capture (host_with ["text.ftdc"; "run1.ftdc"]) "/data" "/opt"
      "text.ftdc"
    = Skipped (ErrorReadingOutput "text.ftdc" e).
Proof.
  refine (proj1 (bad_value_excludes_whole_capture
                   (host_with ["text.ftdc"; "run1.ftdc"]) "/data" "/opt"
                   "text.ftdc" _
                   (PyDict [("Name", PyStr "LatencyMax");
                            ("Value", PyStr "slow")])
                   (PyStr "slow") "LatencyMax" _ _ _ _ _ _ _ _)).
  - reflexivity.
  - reflexivity.
  - reflexivity.
  - right. left. reflexivity.
  - reflexivity.
  - reflexivity.
  - reflexivity.
  - reflexivity.
Defined.

End RollupResults.

(* ===================================================================== *)
(** * The report builder and the certificate cache: main results *)
(* ===================================================================== *)

Module CedarResults.
Import Py PyFacts CedarReport Scenarios.

(** The dictionary of the bucket descriptor of a configuration. *)
Lemma bucket_descriptor (config : _Config) :
  report_get (build_report config) "bucket"
  = Some (PyNamedTuple "CedarBucketConfig"
            [ ("api_key", PyStr (api_key config));
              ("api_secret", PyStr (api_secret config));
              ("api_token", PyNone);
              ("region", PyStr (cloud_region config));
              ("name", PyStr (cloud_bucket config));
              ("prefix", PyStr (format_underscore (task_id config)
                                  (execution_number config))) ]).
Proof. reflexivity. Qed.

(** For every configuration the report has one test, and the [artifacts]
    entry of that test is the dictionary of the bucket descriptor: it is not
    a list, whatever [metrics_file_names] holds. *)
Lemma test_artifacts_is_bucket_descriptor (config : _Config) :
  exists test,
    report_tests (build_report config) = [test] /\
    report_get test "artifacts"
    = Some (PyDict
              [ ("api_key", PyStr (api_key config));
                ("api_secret", PyStr (api_secret config));
                ("api_token", PyNone);
                ("region", PyStr (cloud_region config));
                ("name", PyStr (cloud_bucket config));
                ("prefix", PyStr (format_underscore (task_id config)
                                    (execution_number config))) ]) /\
    test_artifacts test = None.
Proof. eexists. repeat split. Qed.

(** The list the loop fills has one artifact per path, with the path as
    local path and its base name as remote path. *)
Lemma build_artifacts_paths (config : _Config) :
  length (build_artifacts config) = length (metrics_file_names config) /\
  map (fun a => (report_get a "local_path", report_get a "path"))
      (build_artifacts config)
  = map (fun path => (Some (PyStr path), Some (PyStr (os_path_basename path))))
        (metrics_file_names config).
Proof.
  unfold build_artifacts. split; [apply length_map|].
  rewrite map_map. reflexivity.
Qed.

(** ** C2.  The code at [metrics_file_names=["/tmp/a.txt","/tmp/b.txt"]]:
    the loop builds the two artifacts with remote paths [a.txt] and [b.txt],
    but the single test of the report carries the bucket descriptor under
    [artifacts], so the report holds no artifact. *)
Theorem build_report_drops_artifacts :
  map (fun a => (report_get a "local_path", report_get a "path"))
      (build_artifacts config_ab)
  = [ (Some (PyStr "/tmp/a.txt"), Some (PyStr "a.txt"));
      (Some (PyStr "/tmp/b.txt"), Some (PyStr "b.txt")) ] /\
  exists test,
    report_tests (build_report config_ab) = [test] /\
    report_get test "artifacts"
    = Some (PyDict [ ("api_key", PyStr "AKIA"); ("api_secret", PyStr "s3cr3t");
                     ("api_token", PyNone); ("region", PyStr "us-east-1");
                     ("name", PyStr "dsi-genny-metrics");
                     ("prefix", PyStr "task_7_0") ]) /\
    test_artifacts test = None.
Proof. split; [reflexivity|]. eexists. repeat split. Qed.




Lemma bucket_prefix_of_report (config : _Config) :
  bucket_prefix_of (build_report config)
  = Some (PyStr (task_id config +:+ "_" +:+ execution_number config)).
Proof. reflexivity. Qed.

(** Joining with an underscore is one-to-one as long as the second parts
    contain no underscore. *)
Lemma format_underscore_inj (a1 e1 a2 e2 : string) :
  no_underscore e1 -> no_underscore e2 ->
  format_underscore a1 e1 = format_underscore a2 e2 -> a1 = a2 /\ e1 = e2.
Proof.
  unfold no_underscore, format_underscore. intros H1 H2 Heq.
  apply (f_equal list_ascii_of_string) in Heq.
  rewrite !list_ascii_app in Heq. simpl in Heq.
  destruct (split_at_last_unique _ _ _ _ _ H1 H2 Heq) as [Ha He].
  split; now apply list_ascii_inj.
Qed.

(** ** C8, as the claim has it, fails: two configurations that differ in the
    task id and in the execution number, with the same bucket prefix. *)
Lemma bucket_prefix_collision :
  let c1 := config_with "a_b" "c" [] in
  let c2 := config_with "a" "b_c" [] in
  task_id c1 <> task_id c2 /\
  execution_number c1 <> execution_number c2 /\
  bucket_prefix_of (build_report c1) = Some (PyStr "a_b_c") /\
  bucket_prefix_of (build_report c2) = Some (PyStr "a_b_c").
Proof. repeat split; discriminate. Qed.

(** ** C8, amended.  The bucket prefix of the report is the task id, an
    underscore and the execution number.  Configurations with the same task
    id and execution number have the same prefix; configurations that differ
    in one of the two and agree on the other have distinct prefixes; and
    configurations that differ in either have distinct prefixes when their
    execution numbers contain no underscore. *)
Theorem bucket_prefix_joins_task_and_execution :
  (forall c,
     bucket_prefix_of (build_report c)
     = Some (PyStr (task_id c +:+ "_" +:+ execution_number c))) /\
  (forall c1 c2,
     task_id c1 = task_id c2 -> execution_number c1 = execution_number c2 ->
     bucket_prefix_of (build_report c1) = bucket_prefix_of (build_report c2)) /\
  (forall c1 c2,
     task_id c1 = task_id c2 -> execution_number c1 <> execution_number c2 ->
     bucket_prefix_of (build_report c1) <> bucket_prefix_of (build_report c2)) /\
  (forall c1 c2,
     execution_number c1 = execution_number c2 -> task_id c1 <> task_id c2 ->
     bucket_prefix_of (build_report c1) <> bucket_prefix_of (build_report c2)) /\
  (forall c1 c2,
     no_underscore (execution_number c1) ->
     no_underscore (execution_number c2) ->
     task_id c1 <> task_id c2 \/ execution_number c1 <> execution_number c2 ->
     bucket_prefix_of (build_report c1) <> bucket_prefix_of (build_report c2)).
Proof.
  split; [exact bucket_prefix_of_report|].
  split; [|split; [|split]].
  - intros c1 c2 Ht He. rewrite !bucket_prefix_of_report. now rewrite Ht, He.
  - intros c1 c2 Ht He. rewrite !bucket_prefix_of_report, Ht.
    intros H. inversion H as [H']. apply He.
    apply append_inj_r in H'. now apply append_inj_r in H'.
  - intros c1 c2 He Ht. rewrite !bucket_prefix_of_report, He.
    intros H. inversion H as [H']. apply Ht.
    now apply append_inj_l in H'.
  - intros c1 c2 H1 H2 Hdiff. rewrite !bucket_prefix_of_report.
    intros H. inversion H as [H'].
    destruct (format_underscore_inj _ _ _ _ H1 H2 H') as [Ha He].
    destruct Hdiff; contradiction.
Qed.

(** Two executions of distinct tasks. *)
Lemma bucket_prefix_joins_task_and_execution_witness :
  bucket_prefix_of (build_report (config_with "task_7" "0" []))
  <> bucket_prefix_of (build_report (config_with "task_8" "1" [])).
Proof.
  apply (proj2 (proj2 (proj2 (proj2 bucket_prefix_joins_task_and_execution)))).
  - reflexivity.
  - reflexivity.
  - left. discriminate.
Defined.




End CedarResults.

(* ===================================================================== *)
(** * Further properties of test_result_summary_v2.py *)
(* ===================================================================== *)

Module RollupExtras.
Import Py PyFacts TestResultSummaryV2 TestResultSummaryScript RollupFacts.
Import Scenarios MoreScenarios.

Section Runs.
Variable h : Host.
Variables ftdc_dir curator_path : string.

Let capture := process_capture h ftdc_dir curator_path.
Let loop := process_loop h ftdc_dir curator_path.
Let diagnostics := diagnostics_of h ftdc_dir curator_path.

(** The loop over a listing in two parts: the second part runs from the
    state the first part leaves, unless the first part raised. *)
Lemma loop_app (names1 names2 : list string) :
  forall result_map0 out,
    loop (names1 ++ names2) result_map0 out
    = let st := loop names1 result_map0 out in
      match raised st with
      | Some _ => st
      | None => loop names2 (result_map st) (stdout st)
      end.
Proof.
  unfold loop.
  induction names1 as [|g names1 IH]; intros rm out; simpl; [reflexivity|].
  destruct (endswith g ".ftdc"); simpl; [|apply IH].
  destruct (process_capture h ftdc_dir curator_path g); try apply IH.
  reflexivity.
Qed.

(** A loop that runs to its end has printed the diagnostics of the skipped
    captures, in the order of the listing, and nothing else. *)
Lemma loop_prints_diagnostics (names : list string) :
  forall result_map0 out,
    raised (loop names result_map0 out) = None ->
    stdout (loop names result_map0 out) = (out ++ diagnostics names)%list.
Proof.
  unfold loop, diagnostics, diagnostics_of.
  induction names as [|g names IH]; intros rm out Hr; simpl in *.
  - now rewrite app_nil_r.
  - destruct (endswith g ".ftdc"); simpl in *; [|now apply IH].
    destruct (process_capture h ftdc_dir curator_path g); simpl in *.
    + rewrite IH by exact Hr. now rewrite <- app_assoc.
    + now apply IH.
    + discriminate.
Qed.

(** The diagnostic of a skipped capture names the capture. *)
Lemma skipped_diagnostic_names_capture (filename : string)
    (line : output_line) :
  capture filename = Skipped line ->
  line = ErrorRunningCurator filename \/
  exists e, line = ErrorReadingOutput filename e.
Proof.
  unfold capture, process_capture.
  destruct (subprocess_run_check h _) as [[]|e].
  - destruct (bind _ _) as [fl|e]; [discriminate|].
    intros H. inversion H. right. now exists e.
  - destruct e; try discriminate. intros H. inversion H. now left.
Qed.

(** When every subprocess starts, a listed capture that is extracted is
    found in the aggregate mapping the run prints. *)
Lemma completed_run_lookup (names : list string) (filename b : string)
    (filtered : dict) :
  os_listdir h ftdc_dir = Ok names ->
  all_started h ftdc_dir curator_path names ->
  In filename names -> endswith filename ".ftdc" = true ->
  capture filename = Extracted b filtered ->
  exists m,
    printed_mapping (process_ftdc_files h ftdc_dir curator_path)
    = Some (PyDict m) /\
    dict_get b m = Some (PyDict filtered).
Proof.
  intros Hlist Hstart Hin Hend Hc. unfold process_ftdc_files. rewrite Hlist.
  pose proof (loop_not_raised h ftdc_dir curator_path names Hstart [] [])
    as Hr.
  rewrite Hr. rewrite printed_mapping_dump. eexists. split; [reflexivity|].
  eapply loop_complete; eauto.
Qed.

End Runs.

(** The loop asks a host for nothing but the subprocess and the loading of
    the output. *)
Lemma process_loop_same_answers (h h' : Host)
    (ftdc_dir curator_path : string) (names : list string) :
  subprocess_call h' = subprocess_call h ->
  json_load_path h' = json_load_path h ->
  forall result_map0 out,
    process_loop h' ftdc_dir curator_path names result_map0 out
    = process_loop h ftdc_dir curator_path names result_map0 out.
Proof.
  intros Hs Hj.
  assert (Hc : forall g, process_capture h' ftdc_dir curator_path g
                         = process_capture h ftdc_dir curator_path g)
    by (intros g; unfold process_capture, subprocess_run_check;
        now rewrite Hs, Hj).
  induction names as [|g names IH]; intros rm out; simpl; [reflexivity|].
  destruct (endswith g ".ftdc"); simpl; [|apply IH].
  rewrite Hc.
  destruct (process_capture h ftdc_dir curator_path g); try apply IH.
  reflexivity.
Qed.

(** ** X1.  In a run whose directory can be listed and whose subprocesses
    all start, what is printed before the final summary is exactly one
    diagnostic per skipped capture, in the order of the listing; each names
    its capture, and it is the "error running" line exactly when the tool
    exited with a non-zero status. *)
Theorem completed_run_prints_one_diagnostic_per_skipped_capture
    (h : Host) (ftdc_dir curator_path : string) (names : list string) :
  os_listdir h ftdc_dir = Ok names ->
  all_started h ftdc_dir curator_path names ->
  (exists m,
     process_ftdc_files h ftdc_dir curator_path
     = ((diagnostics_of h ftdc_dir curator_path names
         ++ [JsonDump (PyDict m)])%list, Ok PyNone)) /\
  (forall f line,
     process_capture h ftdc_dir curator_path f = Skipped line ->
     (line = ErrorRunningCurator f /\
      exists code, code <> 0 /\
        subprocess_call h (curator_argv ftdc_dir curator_path f) = Ok code)
     \/
     (exists e, line = ErrorReadingOutput f e /\
        subprocess_call h (curator_argv ftdc_dir curator_path f) = Ok 0)
     \/
     (line = ErrorRunningCurator f /\
      exists code,
        subprocess_call h (curator_argv ftdc_dir curator_path f)
        = Raise (CalledProcessError code))).
Proof.
  intros Hlist Hstart. split.
  - unfold process_ftdc_files. rewrite Hlist.
    pose proof (loop_not_raised h ftdc_dir curator_path names Hstart [] [])
      as Hr.
    rewrite Hr. eexists.
    now rewrite (loop_prints_diagnostics h ftdc_dir curator_path names [] []
                   Hr).
  - intros f line. unfold process_capture, subprocess_run_check.
    destruct (subprocess_call h _) as [code|e]; cbn [bind].
    + destruct (code =? 0) eqn:Hcode.
      * apply Z.eqb_eq in Hcode. subst code.
        destruct (bind _ _) as [fl|e]; [discriminate|].
        intros H. inversion H. right. left. now exists e.
      * apply Z.eqb_neq in Hcode. intros H. inversion H. left.
        split; [reflexivity|]. now exists code.
    + destruct e; try discriminate. intros H. inversion H. right. right.
      split; [reflexivity|]. now exists returncode.
Qed.

Lemma completed_run_prints_one_diagnostic_per_skipped_capture_witness :
  exists m,
    process_ftdc_files (other_host ["bad.ftdc"; "odd.ftdc"; "run1.ftdc"])
      "/data" "/opt"
    = ([ ErrorRunningCurator "bad.ftdc";
         ErrorReadingOutput "odd.ftdc" TypeError;
         JsonDump (PyDict m) ], Ok PyNone).
Proof.
  destruct (completed_run_prints_one_diagnostic_per_skipped_capture
              (other_host ["bad.ftdc"; "odd.ftdc"; "run1.ftdc"])
              "/data" "/opt" ["bad.ftdc"; "odd.ftdc"; "run1.ftdc"]
              ltac:(reflexivity)) as [[m Hm] _].
  - intros f [<-|[<-|[<-|[]]]] _; vm_compute; eauto.
  - exists m. exact Hm.
Defined.

(** ** X2.  A subprocess that cannot be started (an exception other than
    [CalledProcessError]) ends the run there: the exception leaves
    [process_ftdc_files], no summary is printed, and the records extracted
    from the earlier captures are lost; only their diagnostics were
    printed. *)
Theorem unstartable_tool_aborts_run
    (h : Host) (ftdc_dir curator_path : string)
    (before after : list string) (g : string) (e : exn) :
  os_listdir h ftdc_dir = Ok (before ++ g :: after)%list ->
  all_started h ftdc_dir curator_path before ->
  endswith g ".ftdc" = true ->
  subprocess_call h (curator_argv ftdc_dir curator_path g) = Raise e ->
  (forall code, e <> CalledProcessError code) ->
  process_ftdc_files h ftdc_dir curator_path
  = (diagnostics_of h ftdc_dir curator_path before, Raise e).
Proof.
  intros Hlist Hstart Hend Hcall Hexn.
  unfold process_ftdc_files. rewrite Hlist, loop_app. cbv zeta.
  pose proof (loop_not_raised h ftdc_dir curator_path before Hstart [] [])
    as Hr.
  rewrite Hr.
  rewrite (loop_prints_diagnostics h ftdc_dir curator_path before [] [] Hr).
  simpl. rewrite Hend. simpl.
  unfold process_capture, subprocess_run_check. rewrite Hcall. cbn [bind].
  destruct e; try reflexivity. exfalso. now apply (Hexn returncode).
Qed.

Lemma unstartable_tool_aborts_run_witness :
  process_ftdc_files (other_host ["bad.ftdc"; "run1.ftdc"; "gone.ftdc"])
    "/data" "/opt"
  = ([ErrorRunningCurator "bad.ftdc"], Raise OSError).
Proof.
  apply (unstartable_tool_aborts_run
           (other_host ["bad.ftdc"; "run1.ftdc"; "gone.ftdc"]) "/data" "/opt"
           ["bad.ftdc"; "run1.ftdc"] [] "gone.ftdc" OSError).
  - reflexivity.
  - intros f [<-|[<-|[]]] _; vm_compute; eauto.
  - reflexivity.
  - reflexivity.
  - discriminate.
Defined.

(** ** X3.  The content of the aggregate mapping does not depend on the
    order in which the directory is listed: when every subprocess starts,
    the runs on two listings with the same names bind every key to the same
    record. *)
Theorem listing_order_is_irrelevant
    (h : Host) (ftdc_dir curator_path : string) (names names' : list string) :
  os_listdir h ftdc_dir = Ok names ->
  Permutation names names' ->
  all_started h ftdc_dir curator_path names ->
  exists m m',
    printed_mapping (process_ftdc_files h ftdc_dir curator_path)
    = Some (PyDict m) /\
    printed_mapping
      (process_ftdc_files (with_listing (fun _ => Ok names') h)
         ftdc_dir curator_path)
    = Some (PyDict m') /\
    forall b, dict_get b m = dict_get b m'.
Proof.
  intros Hlist Hperm Hstart.
  assert (Hstart' : all_started h ftdc_dir curator_path names')
    by (intros f Hin; apply Hstart; eapply Permutation_in;
        [symmetry; exact Hperm | exact Hin]).
  unfold process_ftdc_files. rewrite Hlist. cbn [with_listing os_listdir].
  rewrite (process_loop_same_answers h (with_listing _ h))
    by reflexivity.
  pose proof (loop_not_raised h ftdc_dir curator_path names Hstart [] [])
    as Hr.
  pose proof (loop_not_raised h ftdc_dir curator_path names' Hstart' [] [])
    as Hr'.
  rewrite Hr, Hr', !printed_mapping_dump.
  do 2 eexists. split; [reflexivity|]. split; [reflexivity|].
  assert (Hsub : forall l l', (forall f, In f l -> In f l') ->
            raised (process_loop h ftdc_dir curator_path l' [] []) = None ->
            forall b x,
              dict_get b (result_map
                            (process_loop h ftdc_dir curator_path l [] []))
              = Some x ->
              dict_get b (result_map
                            (process_loop h ftdc_dir curator_path l' [] []))
              = Some x).
  { intros l l' Hin Hrl b x Hget.
    apply loop_entries in Hget as [Hget|(g & fl & Hg & Hend & Hc & ->)];
      [discriminate|].
    eapply loop_complete; eauto. }
  intros b.
  destruct (dict_get b (result_map
                          (process_loop h ftdc_dir curator_path names [] [])))
    as [x|] eqn:H1.
  - symmetry. eapply (Hsub names names'); eauto.
    intros f. now apply Permutation_in.
  - destruct (dict_get b (result_map
                            (process_loop h ftdc_dir curator_path names' []
                               []))) as [x|] eqn:H2; [|reflexivity].
    rewrite <- H1. eapply (Hsub names' names); eauto.
    intros f. apply Permutation_in. now symmetry.
Qed.

Lemma listing_order_is_irrelevant_witness :
  exists m m',
    printed_mapping
      (process_ftdc_files (other_host ["empty.ftdc"; "run1.ftdc"])
         "/data" "/opt") = Some (PyDict m) /\
    printed_mapping
      (process_ftdc_files
         (with_listing (fun _ => Ok ["run1.ftdc"; "empty.ftdc"])
            (other_host ["empty.ftdc"; "run1.ftdc"]))
         "/data" "/opt") = Some (PyDict m') /\
    forall b, dict_get b m = dict_get b m'.
Proof.
  apply (listing_order_is_irrelevant
           (other_host ["empty.ftdc"; "run1.ftdc"]) "/data" "/opt"
           ["empty.ftdc"; "run1.ftdc"] ["run1.ftdc"; "empty.ftdc"]).
  - reflexivity.
  - apply perm_swap.
  - intros f [<-|[<-|[]]] _; vm_compute; eauto.
Defined.

(** ** X4.  Names that do not end with [.ftdc] have no part in a run:
    removing them from the listing changes neither what is printed nor what
    is returned or raised. *)
Theorem other_files_are_ignored
    (h : Host) (ftdc_dir curator_path : string) :
  process_ftdc_files (only_captures h) ftdc_dir curator_path
  = process_ftdc_files h ftdc_dir curator_path.
Proof.
  unfold process_ftdc_files. cbn [only_captures os_listdir].
  destruct (os_listdir h ftdc_dir) as [names|e]; cbn [bind]; [|reflexivity].
  rewrite (process_loop_same_answers h (only_captures h)) by reflexivity.
  assert (Hloop : forall rm out,
            process_loop h ftdc_dir curator_path
              (List.filter (fun g => endswith g ".ftdc") names) rm out
            = process_loop h ftdc_dir curator_path names rm out).
  { induction names as [|g names IH]; intros rm out; simpl; [reflexivity|].
    destruct (endswith g ".ftdc") eqn:Hg; simpl; [|apply IH].
    rewrite Hg. simpl.
    destruct (process_capture h ftdc_dir curator_path g); try apply IH.
    reflexivity. }
  now rewrite Hloop.
Qed.

(** Records with unrecognized names leave the per-file record empty. *)
Lemma extract_items_unrecognized (items : list pyval) :
  Forall unrecognized_record items ->
  forall filtered, extract_items filtered items = Ok filtered.
Proof.
  induction 1 as [|item items (name & Hn & Hh & Hr) _ IH]; intros filtered;
    simpl; [reflexivity|].
  rewrite (extract_item_unrecognized filtered item name Hn Hh Hr).
  cbn [bind]. apply IH.
Qed.

(** ** X5.  A capture on which the tool succeeds and whose output is a list
    with no recognized record (the empty list for one) is not skipped: it is
    extracted with the empty record, and a run that goes through binds its
    identifier to [{}]. *)
Theorem capture_without_recognized_record_is_kept_empty
    (h : Host) (ftdc_dir curator_path : string) (names : list string)
    (filename : string) (items : list pyval) :
  os_listdir h ftdc_dir = Ok names ->
  all_started h ftdc_dir curator_path names ->
  In filename names ->
  endswith filename ".ftdc" = true ->
  subprocess_call h (curator_argv ftdc_dir curator_path filename) = Ok 0 ->
  json_load_path h (output_path_of (slice_drop_last 5 filename))
  = Ok (PyList items) ->
  Forall unrecognized_record items ->
  process_capture h ftdc_dir curator_path filename
  = Extracted (slice_drop_last 5 filename) [] /\
  exists m,
    printed_mapping (process_ftdc_files h ftdc_dir curator_path)
    = Some (PyDict m) /\
    dict_get (slice_drop_last 5 filename) m = Some (PyDict []).
Proof.
  intros Hlist Hstart Hin Hend Hcall Hload Hitems.
  assert (Hc : process_capture h ftdc_dir curator_path filename
               = Extracted (slice_drop_last 5 filename) []).
  { unfold process_capture, subprocess_run_check.
    rewrite Hcall, Hload. cbn [bind Z.eqb].
    unfold filter_output. cbn [py_iter bind].
    now rewrite (extract_items_unrecognized items Hitems). }
  split; [exact Hc|].
  eapply completed_run_lookup; eauto.
Qed.

Lemma capture_without_recognized_record_is_kept_empty_witness :
  process_capture (other_host ["empty.ftdc"; "bad.ftdc"]) "/data" "/opt"
    "empty.ftdc"
  = Extracted "empty" [].
Proof.
  refine (proj1 (capture_without_recognized_record_is_kept_empty
                   (other_host ["empty.ftdc"; "bad.ftdc"]) "/data" "/opt"
                   ["empty.ftdc"; "bad.ftdc"] "empty.ftdc" [] _ _ _ _ _ _ _)).
  - reflexivity.
  - intros f [<-|[<-|[]]] _; vm_compute; eauto.
  - left. reflexivity.
  - reflexivity.
  - reflexivity.
  - reflexivity.
  - constructor.
Defined.

(** ** X6.  A tool output that is not a list: the empty JSON object is taken
    for an output without records and gives the empty record; an object with
    a member makes the capture skipped with an [AttributeError] (the loop
    meets its keys, which are strings); [null], a boolean or a number makes
    it skipped with a [TypeError]. *)
Theorem output_that_is_not_a_list
    (h : Host) (ftdc_dir curator_path filename : string)
    (output_data : pyval) :
  subprocess_call h (curator_argv ftdc_dir curator_path filename) = Ok 0 ->
  json_load_path h (output_path_of (slice_drop_last 5 filename))
  = Ok output_data ->
  (output_data = PyDict [] ->
   process_capture h ftdc_dir curator_path filename
   = Extracted (slice_drop_last 5 filename) []) /\
  (forall k v d, output_data = PyDict ((k, v) :: d) ->
   process_capture h ftdc_dir curator_path filename
   = Skipped (ErrorReadingOutput filename AttributeError)) /\
  (output_data = PyNone \/ (exists b, output_data = PyBool b) \/
   (exists z, output_data = PyInt z) \/ (exists x, output_data = PyFloat x) ->
   process_capture h ftdc_dir curator_path filename
   = Skipped (ErrorReadingOutput filename TypeError)).
Proof.
  intros Hcall Hload. unfold process_capture, subprocess_run_check.
  rewrite Hcall, Hload. cbn [bind Z.eqb].
  split; [|split].
  - intros ->. reflexivity.
  - intros k v d ->. reflexivity.
  - intros [-> | [[b ->] | [[z ->] | [x ->]]]]; reflexivity.
Qed.

Lemma output_that_is_not_a_list_witness :
  process_capture (other_host ["object.ftdc"]) "/data" "/opt" "object.ftdc"
  = Skipped (ErrorReadingOutput "object.ftdc" AttributeError).
Proof.
  refine (proj1 (proj2 (output_that_is_not_a_list
                          (other_host ["object.ftdc"]) "/data" "/opt"
                          "object.ftdc"
                          (PyDict [("Name", PyStr "ErrorRate")]) _ _))
            "Name" (PyStr "ErrorRate") [] _).
  - reflexivity.
  - reflexivity.
  - reflexivity.
Defined.

(** The keys of a dictionary after an assignment. *)
Lemma dict_set_keys (k : string) (v : pyval) (d : dict) :
  map fst (dict_set k v d)
  = if existsb (String.eqb k) (map fst d) then map fst d
    else (map fst d ++ [k])%list.
Proof.
  induction d as [|[k' v'] d IH]; simpl; [reflexivity|].
  destruct (String.eqb k k'); simpl; [reflexivity|].
  rewrite IH. now destruct (existsb _ _).
Qed.

Lemma dict_set_keys_NoDup (k : string) (v : pyval) (d : dict) :
  NoDup (map fst d) -> NoDup (map fst (dict_set k v d)).
Proof.
  intros Hd. rewrite dict_set_keys.
  destruct (existsb (String.eqb k) (map fst d)) eqn:E; [exact Hd|].
  apply NoDup_app. split; [exact Hd|]. split.
  - intros x Hx Hk. apply list_elem_of_In in Hx, Hk.
    destruct Hk as [<-|[]].
    assert (existsb (String.eqb k) (map fst d) = true)
      by (apply existsb_exists; exists k; split;
          [exact Hx | apply String.eqb_refl]).
    congruence.
  - apply NoDup_singleton.
Qed.

Lemma dict_set_keys_incl (k : string) (v : pyval) (d : dict) (x : string) :
  In x (map fst (dict_set k v d)) -> x = k \/ In x (map fst d).
Proof.
  rewrite dict_set_keys. destruct (existsb _ _); [now right|].
  intros H. apply in_app_or in H as [H|[<-|[]]]; auto.
Qed.

(** The names of the table, all distinct. *)
Lemma recognized_in_table (f : string) :
  recognized (PyStr f) = true -> In f (map fst FIELDS_TO_EXTRACT).
Proof.
  cbn [recognized]. pose proof (table_get_spec f) as Ht.
  destruct (spec_divisor f); [|discriminate]. intros _.
  destruct Ht as (conv & Ht & _). revert Ht.
  generalize FIELDS_TO_EXTRACT.
  induction l as [|[k a] l IH]; simpl; [discriminate|].
  destruct (String.eqb f k) eqn:E; [|now right; apply IH].
  apply String.eqb_eq in E. now left.
Qed.

Lemma extract_items_keys (items : list pyval) :
  forall filtered filtered',
    extract_items filtered items = Ok filtered' ->
    NoDup (map fst filtered) ->
    (forall k, In k (map fst filtered) -> In k (map fst FIELDS_TO_EXTRACT)) ->
    NoDup (map fst filtered') /\
    (forall k, In k (map fst filtered') -> In k (map fst FIELDS_TO_EXTRACT)).
Proof.
  induction items as [|item items IH]; intros filtered filtered' H Hnd Hin;
    simpl in H.
  - inversion H. subst. now split.
  - destruct (extract_item filtered item) as [f1|] eqn:Hstep; cbn [bind] in H;
      [|discriminate].
    apply (IH _ _ H).
    + destruct (extract_item_inv _ _ _ Hstep) as [->|(g & r & _ & _ & _ & ->)];
        [exact Hnd | now apply dict_set_keys_NoDup].
    + destruct (extract_item_inv _ _ _ Hstep) as [->|(g & r & _ & Hg & _ & ->)];
        [exact Hin|].
      intros k Hk. apply dict_set_keys_incl in Hk as [->|Hk];
        [now apply recognized_in_table | now apply Hin].
Qed.

(** ** X7.  A per-file record never holds a key twice, holds only names of
    the table, and so has at most fourteen entries, however many records the
    tool output has. *)
Theorem record_keys_are_distinct_table_names
    (output_data : pyval) (filtered : dict) :
  filter_output output_data = Ok filtered ->
  NoDup (map fst filtered) /\
  (forall k, In k (map fst filtered) -> In k (map fst FIELDS_TO_EXTRACT)) /\
  (length filtered <= 14)%nat.
Proof.
  unfold filter_output. intros H.
  destruct (py_iter output_data) as [items|]; cbn [bind] in H; [|discriminate].
  destruct (extract_items_keys items [] filtered H) as [Hnd Hin].
  - constructor.
  - intros k [].
  - split; [exact Hnd|]. split; [exact Hin|].
    rewrite <- (length_map fst filtered).
    change 14%nat with (length (map fst FIELDS_TO_EXTRACT)).
    apply NoDup_incl_length; [|exact Hin].
    clear -Hnd. induction Hnd; constructor; auto.
    now rewrite <- list_elem_of_In.
Qed.

Lemma record_keys_are_distinct_table_names_witness :
  (length [("AverageLatency", PyFloat two)] <= 14)%nat.
Proof.
  exact (proj2 (proj2 (record_keys_are_distinct_table_names run1_output
                         [("AverageLatency", PyFloat two)]
                         ltac:(reflexivity)))).
Defined.

(** ** X8.  The pass-through fields keep an integer value as the very same
    integer, of any size, while every field of the table with a divisor
    other than 1 is stored as a float whenever it is stored. *)
Theorem integers_pass_through_and_divisions_give_floats
    (filtered : dict) (item v : pyval) (f : string) :
  py_get item "Name" = Ok (PyStr f) ->
  py_get item "Value" = Ok v ->
  (spec_divisor f = Some 1 ->
   forall a, v = PyInt a ->
     extract_item filtered item = Ok (dict_set f (PyInt a) filtered)) /\
  (forall d filtered',
     spec_divisor f = Some d -> d <> 1 ->
     extract_item filtered item = Ok filtered' ->
     exists x, filtered' = dict_set f (PyFloat x) filtered).
Proof.
  intros Hname Hvalue. split.
  - intros Hd a ->.
    now rewrite (extract_item_recognized filtered item _ f 1 Hname Hvalue Hd).
  - intros d filtered' Hd Hne.
    rewrite (extract_item_recognized filtered item v f d Hname Hvalue Hd).
    unfold spec_round_div. apply Z.eqb_neq in Hne. rewrite Hne.
    destruct v; cbn [py_truediv bind]; try discriminate.
    + destruct (int_truediv _ d); cbn [bind py_round3]; [|discriminate].
      intros H. inversion H. eauto.
    + destruct (int_truediv _ d); cbn [bind py_round3]; [|discriminate].
      intros H. inversion H. eauto.
    + destruct (float_truediv _ d); cbn [bind py_round3]; [|discriminate].
      intros H. inversion H. eauto.
Qed.

Lemma integers_pass_through_and_divisions_give_floats_witness :
  extract_item []
    (PyDict [("Name", PyStr "OperationsTotal");
             ("Value", PyInt 9007199254740993)])
  = Ok [("OperationsTotal", PyInt 9007199254740993)].
Proof.
  exact (proj1 (integers_pass_through_and_divisions_give_floats []
                  (PyDict [("Name", PyStr "OperationsTotal");
                           ("Value", PyInt 9007199254740993)])
                  (PyInt 9007199254740993) "OperationsTotal"
                  ltac:(reflexivity) ltac:(reflexivity))
           ltac:(reflexivity) 9007199254740993 ltac:(reflexivity)).
Defined.

(** ** X9.  One item of the tool output that is not an object, or whose
    [Name] is a list or an object, makes the whole capture skipped with a
    diagnostic, whatever the other records hold. *)
Theorem malformed_record_skips_capture
    (h : Host) (ftdc_dir curator_path filename : string)
    (items : list pyval) (item : pyval) :
  subprocess_call h (curator_argv ftdc_dir curator_path filename) = Ok 0 ->
  json_load_path h (output_path_of (slice_drop_last 5 filename))
  = Ok (PyList items) ->
  In item items ->
  (forall d, item <> PyDict d) \/
  (exists name, py_get item "Name" = Ok name /\ py_hashable name = false) ->
  exists e,
    process_capture h ftdc_dir curator_path filename
    = Skipped (ErrorReadingOutput filename e).
Proof.
  intros Hcall Hload Hin Hbad.
  unfold process_capture, subprocess_run_check.
  rewrite Hcall, Hload. cbn [bind Z.eqb].
  unfold filter_output. cbn [py_iter bind].
  destruct (extract_items_raises item items Hin)
    with (filtered := @nil (string * pyval)) as [e ->]; [|eauto].
  intros filtered. unfold extract_item.
  destruct Hbad as [Hnot|(name & -> & Hhash)].
  - destruct item; cbn [py_get bind]; eauto. now destruct (Hnot d).
  - cbn [bind]. unfold fields_lookup. rewrite Hhash. cbn [bind]. eauto.
Qed.

Lemma malformed_record_skips_capture_witness :
  exists e,
    process_capture (other_host ["odd.ftdc"]) "/data" "/opt" "odd.ftdc"
    = Skipped (ErrorReadingOutput "odd.ftdc" e).
Proof.
  refine (malformed_record_skips_capture
            (other_host ["odd.ftdc"]) "/data" "/opt" "odd.ftdc" _
            (PyDict [("Name", PyList [PyStr "ErrorRate"]);
                     ("Value", PyInt 1)]) _ _ _ _).
  - reflexivity.
  - reflexivity.
  - left. reflexivity.
  - right. exists (PyList [PyStr "ErrorRate"]). split; reflexivity.
Defined.

(** ** X10.  The script ends with status 1 and only the usage line unless it
    is given exactly two arguments; with two arguments, a directory that can
    be listed and subprocesses that start, it ends with status 0 after the
    diagnostics and the summary, however many captures were skipped. *)
Theorem script_status_ignores_skipped_captures (h : Host) (argv : list string) :
  (length argv <> 3%nat -> script_main h argv = ([Usage], 1)) /\
  (forall a0 d c names,
     argv = [a0; d; c] ->
     os_listdir h d = Ok names ->
     all_started h d c names ->
     snd (script_main h argv) = 0 /\
     exists m,
       fst (script_main h argv)
       = (map Printed (diagnostics_of h d c names)
          ++ [Printed (JsonDump (PyDict m))])%list).
Proof.
  split.
  - destruct argv as [|a0 [|a1 [|a2 [|a3 argv]]]]; simpl; intros H;
      try reflexivity. now destruct H.
  - intros a0 d c names -> Hlist Hstart. unfold script_main.
    unfold process_ftdc_files. rewrite Hlist.
    pose proof (loop_not_raised h d c names Hstart [] []) as Hr.
    rewrite Hr. cbn [fst snd]. split; [reflexivity|].
    eexists. rewrite (loop_prints_diagnostics h d c names [] [] Hr).
    now rewrite map_app.
Qed.

Lemma script_status_ignores_skipped_captures_witness :
  script_main (other_host ["bad.ftdc"]) ["summary.py"] = ([Usage], 1) /\
  snd (script_main (other_host ["bad.ftdc"]) ["summary.py"; "/data"; "/opt"])
  = 0.
Proof.
  split.
  - apply (proj1 (script_status_ignores_skipped_captures _ _)).
    simpl. lia.
  - refine (proj1 (proj2 (script_status_ignores_skipped_captures
                            (other_host ["bad.ftdc"])
                            ["summary.py"; "/data"; "/opt"])
                     "summary.py" "/data" "/opt" ["bad.ftdc"] _ _ _)).
    + reflexivity.
    + reflexivity.
    + intros f [<-|[]] _; vm_compute; eauto.
Defined.

End RollupExtras.
(* ===================================================================== *)
(** * Further properties of cedar_report.py *)
(* ===================================================================== *)

Module CedarExtras.
Import Py PyFacts CedarReport CedarUpload Scenarios MoreScenarios.

Ltac read_keys :=
  repeat match goal with
         | |- context [?env !! ?k] =>
             match type of env with
             | gmap string string =>
                 destruct (env !! k) eqn:?; simpl; [|reflexivity]
             end
         end.

(** [_Config.__init__] raises for the first key it reads and does not find,
    and goes through when it finds all ten. *)
Lemma config_init_first_missing (env : gmap string string)
    (paths : list string) (run_time clock : Z) :
  match first_missing env config_keys with
  | Some k => _Config__init__ env paths run_time clock = Raise (KeyError k)
  | None => exists c, _Config__init__ env paths run_time clock = Ok c
  end.
Proof.
  unfold first_missing, config_keys, _Config__init__, env_get. simpl.
  read_keys. eexists. reflexivity.
Qed.

(** ** X11.  [_Config.__init__] needs all ten keys of the environment: when
    one is absent it raises [KeyError] for the first absent one in the order
    project, version, variant, task name, task id, execution number,
    [EVG_is_patch], test name, AWS key, AWS secret; in particular an unset
    [EVG_is_patch] is an error, not a mainline run.  With all ten present it
    returns a configuration. *)
Theorem config_needs_every_key (env : gmap string string)
    (paths : list string) (run_time clock : Z) :
  match first_missing env config_keys with
  | Some k => _Config__init__ env paths run_time clock = Raise (KeyError k)
  | None => exists c, _Config__init__ env paths run_time clock = Ok c
  end.
Proof. apply config_init_first_missing. Qed.

(** The mainline environment of the source comment: every key but
    [EVG_is_patch]. *)
Example unset_patch_flag_is_an_error :
  _Config__init__ (delete "EVG_is_patch" (env_with "task_7" "0" "true"))
    [] 0 0
  = Raise (KeyError "EVG_is_patch").
Proof. vm_compute. reflexivity. Qed.

(** A fetch whose target exists returns at once. *)
Lemma fetch_cached
    (g : string -> list (string * string) -> result Response)
    (url output : string) (kwargs : list (string * string)) (w : World) :
  os_path_exists w output = true ->
  _fetch g url output kwargs w = (Ok output, w).
Proof. unfold _fetch. now intros ->. Qed.

Lemma exists_after_insert (w : World) (output body p : string) fs :
  os_path_exists w p = true \/ p = output ->
  os_path_exists {| files := <[output := body]> (files w);
                    requests_sent := fs |} p = true.
Proof.
  unfold os_path_exists. cbn [files]. intros H.
  apply bool_decide_eq_true. destruct (decide (p = output)) as [->|Hne].
  - rewrite lookup_insert_eq. eauto.
  - rewrite lookup_insert_ne by congruence.
    destruct H as [H|H]; [|contradiction].
    now apply bool_decide_eq_true in H.
Qed.

Lemma absent_after_insert (w : World) (output body p : string) fs :
  p <> output -> os_path_exists w p = false ->
  os_path_exists {| files := <[output := body]> (files w);
                    requests_sent := fs |} p = false.
Proof.
  unfold os_path_exists. cbn [files]. intros Hne Hp.
  apply bool_decide_eq_false. apply bool_decide_eq_false in Hp.
  now rewrite lookup_insert_ne by congruence.
Qed.

(** What a fetch leaves behind: every file that existed still exists, and
    after a fetch that returns, its target exists. *)
Lemma fetch_keeps_files
    (g : string -> list (string * string) -> result Response)
    (url output : string) (kwargs : list (string * string)) (w : World)
    (p : string) :
  os_path_exists w p = true ->
  os_path_exists (snd (_fetch g url output kwargs w)) p = true.
Proof.
  intros Hp. unfold _fetch.
  destruct (os_path_exists w output); [exact Hp|].
  destruct (g url kwargs) as [resp|e]; [|exact Hp].
  destruct (raise_for_status resp); [|exact Hp].
  cbn [snd]. apply (exists_after_insert
                      {| files := files w; requests_sent := _ |}).
  now left.
Qed.

Lemma fetch_ok_target_exists
    (g : string -> list (string * string) -> result Response)
    (url output : string) (kwargs : list (string * string)) (w : World)
    (path : string) :
  fst (_fetch g url output kwargs w) = Ok path ->
  path = output /\
  os_path_exists (snd (_fetch g url output kwargs w)) output = true.
Proof.
  unfold _fetch.
  destruct (os_path_exists w output) eqn:Hex.
  - cbn [fst snd]. intros H. inversion H. subst. split; [reflexivity|].
    exact Hex.
  - destruct (g url kwargs) as [resp|e]; [|discriminate].
    destruct (raise_for_status resp); [|discriminate].
    cbn [fst snd]. intros H. inversion H. split; [reflexivity|].
    apply (exists_after_insert {| files := files w; requests_sent := _ |}).
    now right.
Qed.

(** ** X12.  A fetch touches nothing but its target: every other file is as
    before, a file that existed keeps its content (the target included, so
    nothing is ever overwritten), and at most the one request of this fetch
    is added to the requests sent. *)
Theorem fetch_touches_only_its_target
    (g : string -> list (string * string) -> result Response)
    (url output : string) (kwargs : list (string * string)) (w : World) :
  let w' := snd (_fetch g url output kwargs w) in
  (forall p, p <> output -> files w' !! p = files w !! p) /\
  (forall p content, files w !! p = Some content ->
                     files w' !! p = Some content) /\
  (requests_sent w' = requests_sent w \/
   requests_sent w' = (requests_sent w ++ [(url, kwargs)])%list).
Proof.
  cbv zeta. unfold _fetch.
  destruct (os_path_exists w output) eqn:Hex; cbn [snd].
  - repeat split; auto.
  - destruct (g url kwargs) as [resp|e]; cbn [snd files requests_sent];
      [|repeat split; auto].
    destruct (raise_for_status resp); cbn [snd files requests_sent];
      [|repeat split; auto].
    split; [|split; [|now right]].
    + intros p Hp. now rewrite lookup_insert_ne by congruence.
    + intros p content Hp. rewrite lookup_insert_ne; [exact Hp|].
      intros <-. unfold os_path_exists in Hex.
      apply bool_decide_eq_false in Hex. apply Hex. eauto.
Qed.

Lemma fetch_touches_only_its_target_witness :
  files (snd (_fetch (answering 200 "fresh") "u" "cedar.ca.pem" []
                cached_world)) !! "cedar.ca.pem"
  = Some "stale".
Proof.
  apply (proj1 (proj2 (fetch_touches_only_its_target
                         (answering 200 "fresh") "u" "cedar.ca.pem" []
                         cached_world))).
  reflexivity.
Defined.

(** ** X13.  A fetch that returns has made its target a cached file: every
    later fetch of that target, from any address and whatever the remote end
    does by then, returns the same path, sends nothing and changes
    nothing. *)
Theorem fetched_file_is_cached
    (g : string -> list (string * string) -> result Response)
    (url output : string) (kwargs : list (string * string)) (w : World)
    (path : string) :
  fst (_fetch g url output kwargs w) = Ok path ->
  path = output /\
  forall g' url' kwargs',
    _fetch g' url' output kwargs' (snd (_fetch g url output kwargs w))
    = (Ok output, snd (_fetch g url output kwargs w)).
Proof.
  intros H. destruct (fetch_ok_target_exists _ _ _ _ _ _ H) as [-> Hex].
  split; [reflexivity|]. intros g' url' kwargs'. now apply fetch_cached.
Qed.

Lemma fetched_file_is_cached_witness :
  fst (_fetch unreachable "u" "cedar.ca.pem" []
         (snd (_fetch (answering 200 "pem") "u" "cedar.ca.pem" []
                 empty_world)))
  = Ok "cedar.ca.pem".
Proof.
  rewrite (proj2 (fetched_file_is_cached (answering 200 "pem") "u"
                    "cedar.ca.pem" [] empty_world "cedar.ca.pem"
                    ltac:(reflexivity)) unreachable "u" []).
  reflexivity.
Defined.

(** With the three certificate files in place, [get_command] needs no
    network. *)
Lemma get_command_cached
    (g : string -> list (string * string) -> result Response)
    (auth : string) (w : World) :
  (forall f, In f pem_files -> os_path_exists w f = true) ->
  get_command g auth w = (Ok upload_command, w).
Proof.
  intros Hex. unfold get_command, user_cert, user_key, root_ca.
  rewrite !fetch_cached; try reflexivity; apply Hex; simpl; auto.
Qed.

Lemma fetch_returned
    (g : string -> list (string * string) -> result Response)
    (url output : string) (kwargs : list (string * string)) (w w' : World)
    (path : string) :
  _fetch g url output kwargs w = (Ok path, w') ->
  path = output /\ os_path_exists w' output = true /\
  forall p, os_path_exists w p = true -> os_path_exists w' p = true.
Proof.
  intros H.
  pose proof (fetch_ok_target_exists g url output kwargs w path) as E.
  pose proof (fun p => fetch_keeps_files g url output kwargs w p) as K.
  rewrite H in E, K. cbn [fst snd] in E, K.
  destruct (E eq_refl) as [-> Hex]. auto.
Qed.

(** After a [get_command] that returns, the three files are in place. *)
Lemma get_command_ok_files
    (g : string -> list (string * string) -> result Response)
    (auth : string) (w : World) (cmd : list string) :
  fst (get_command g auth w) = Ok cmd ->
  cmd = upload_command /\
  forall f, In f pem_files ->
            os_path_exists (snd (get_command g auth w)) f = true.
Proof.
  unfold get_command, user_cert, user_key, root_ca.
  destruct (_fetch g _ "cedar.user.crt" _ w) as [[cert|e] w1] eqn:H1;
    [|discriminate].
  destruct (_fetch g _ "cedar.user.key" _ w1) as [[key|e] w2] eqn:H2;
    [|discriminate].
  destruct (_fetch g _ "cedar.ca.pem" _ w2) as [[ca|e] w3] eqn:H3;
    [|discriminate].
  cbn [fst snd]. intros H. inversion H. subst cmd. clear H.
  apply fetch_returned in H1 as (-> & X1 & _).
  apply fetch_returned in H2 as (-> & X2 & K2).
  apply fetch_returned in H3 as (-> & X3 & K3).
  split; [reflexivity|].
  intros f [<-|[<-|[<-|[]]]]; auto.
Qed.

(** ** X14.  [get_command] works from the cache: with the three certificate
    files in place it returns the upload command without a request, the
    remote end being reachable or not; and a call that returns leaves the
    three files in place, so that every later call returns the same command
    and changes nothing.  The command is always the same thirteen words. *)
Theorem get_command_works_from_cache
    (g : string -> list (string * string) -> result Response)
    (auth : string) (w : World) :
  ((forall f, In f pem_files -> os_path_exists w f = true) ->
   get_command g auth w = (Ok upload_command, w)) /\
  (forall cmd,
     fst (get_command g auth w) = Ok cmd ->
     cmd = upload_command /\
     forall g' auth',
       get_command g' auth' (snd (get_command g auth w))
       = (Ok upload_command, snd (get_command g auth w))).
Proof.
  split; [apply get_command_cached|].
  intros cmd H. destruct (get_command_ok_files g auth w cmd H) as [-> Hex].
  split; [reflexivity|]. intros g' auth'. now apply get_command_cached.
Qed.

Lemma get_command_works_from_cache_witness :
  get_command unreachable "jane:pw" warm_world
  = (Ok upload_command, warm_world).
Proof.
  apply (proj1 (get_command_works_from_cache unreachable "jane:pw"
                  warm_world)).
  intros f [<-|[<-|[<-|[]]]]; reflexivity.
Defined.

(** A fetch whose target is absent and whose request fails. *)
Lemma fetch_rejected
    (g : string -> list (string * string) -> result Response)
    (url output : string) (kwargs : list (string * string)) (w : World)
    (e : exn) :
  os_path_exists w output = false ->
  rejected g (url, kwargs) e ->
  _fetch g url output kwargs w
  = (Raise e, {| files := files w;
                 requests_sent := (requests_sent w ++ [(url, kwargs)])%list |}).
Proof.
  intros Hex Hrej. unfold _fetch. rewrite Hex.
  destruct Hrej as [Hg|(resp & Hg & Hs & ->)]; cbn [fst snd] in Hg;
    rewrite Hg; [reflexivity|].
  unfold raise_for_status.
  replace ((400 <=? status_code resp) && (status_code resp <? 600))
    with true; [reflexivity|].
  symmetry. apply andb_true_intro. split; [apply Z.leb_le | apply Z.ltb_lt];
    lia.
Qed.

(** A fetch whose target is absent and whose request is answered. *)
Lemma fetch_accepted
    (g : string -> list (string * string) -> result Response)
    (url output : string) (kwargs : list (string * string)) (w : World)
    (body : string) :
  os_path_exists w output = false ->
  accepted g (url, kwargs) body ->
  _fetch g url output kwargs w
  = (Ok output,
     {| files := <[output := body]> (files w);
        requests_sent := (requests_sent w ++ [(url, kwargs)])%list |}).
Proof.
  intros Hex (status & Hg & Hs). unfold _fetch. rewrite Hex.
  cbn [fst snd] in Hg. rewrite Hg. unfold raise_for_status.
  cbn [status_code text].
  replace ((400 <=? status) && (status <? 600)) with false; [reflexivity|].
  symmetry. apply andb_false_iff.
  destruct (Z.leb_spec 400 status); [right|now left].
  apply Z.ltb_ge. lia.
Qed.

(** ** X15.  [get_command] stops at the first certificate it cannot get.
    When the user certificate is not cached and its request fails, the
    exception leaves [get_command] after that one request: the key and the
    root CA are not asked for and no file is written.  When the user
    certificate is cached and the key is not and its request fails, the key
    request is the only one sent. *)
Theorem get_command_stops_at_first_failure
    (g : string -> list (string * string) -> result Response)
    (auth : string) (w : World) (e : exn) :
  (os_path_exists w "cedar.user.crt" = false ->
   rejected g (cert_request auth) e ->
   get_command g auth w
   = (Raise e,
      {| files := files w;
         requests_sent := (requests_sent w ++ [cert_request auth])%list |})) /\
  (os_path_exists w "cedar.user.crt" = true ->
   os_path_exists w "cedar.user.key" = false ->
   rejected g (key_request auth) e ->
   get_command g auth w
   = (Raise e,
      {| files := files w;
         requests_sent := (requests_sent w ++ [key_request auth])%list |})).
Proof.
  split.
  - intros Hex Hrej. unfold get_command, user_cert.
    now rewrite (fetch_rejected g _ _ _ w e Hex Hrej).
  - intros Hcert Hex Hrej. unfold get_command, user_cert, user_key.
    rewrite (fetch_cached g _ _ _ w Hcert).
    now rewrite (fetch_rejected g _ _ _ w e Hex Hrej).
Qed.

Lemma get_command_stops_at_first_failure_witness :
  get_command unreachable "jane:pw" empty_world
  = (Raise ConnectionError,
     {| files := ∅; requests_sent := [cert_request "jane:pw"] |}).
Proof.
  apply (proj1 (get_command_stops_at_first_failure unreachable "jane:pw"
                  empty_world ConnectionError)).
  - reflexivity.
  - left. reflexivity.
Defined.

(** With an empty cache and a remote end that answers, the three fetches
    of [get_command] one after the other. *)
Lemma get_command_fetches_in_order_helper
    (g : string -> list (string * string) -> result Response)
    (auth : string) (w : World) (cert key ca : string) :
  (forall f, In f pem_files -> os_path_exists w f = false) ->
  accepted g (cert_request auth) cert ->
  accepted g (key_request auth) key ->
  accepted g ca_request ca ->
  get_command g auth w
  = (Ok upload_command,
     {| files := <["cedar.ca.pem" := ca]> (
                 <["cedar.user.key" := key]> (
                 <["cedar.user.crt" := cert]> (files w)));
        requests_sent :=
          (requests_sent w
           ++ [cert_request auth; key_request auth; ca_request])%list |}) /\
  snd (cert_request auth) = [("data", auth)] /\
  snd (key_request auth) = [("data", auth)] /\
  snd ca_request = [].
Proof.
  intros Hex Hcert Hkey Hca. split; [|repeat split].
  unfold get_command, user_cert, user_key, root_ca.
  rewrite (fetch_accepted g _ _ _ w cert
             (Hex "cedar.user.crt" ltac:(simpl; auto)) Hcert).
  set (w1 := {| files := <["cedar.user.crt" := cert]> (files w);
                requests_sent := _ |}).
  assert (X1 : os_path_exists w1 "cedar.user.key" = false)
    by (apply absent_after_insert;
        [discriminate | apply Hex; simpl; auto]).
  assert (Y1 : os_path_exists w1 "cedar.ca.pem" = false)
    by (apply absent_after_insert;
        [discriminate | apply Hex; simpl; auto]).
  rewrite (fetch_accepted g _ _ _ w1 key X1 Hkey).
  set (w2 := {| files := <["cedar.user.key" := key]> (files w1);
                requests_sent := _ |}).
  assert (Y2 : os_path_exists w2 "cedar.ca.pem" = false)
    by (apply absent_after_insert; [discriminate | exact Y1]).
  rewrite (fetch_accepted g _ _ _ w2 ca Y2 Hca).
  subst w2 w1. cbn [files requests_sent]. rewrite <- !app_assoc. reflexivity.
Qed.



Lemma length_append (a b : string) :
  String.length (a +:+ b) = (String.length a + String.length b)%nat.
Proof. induction a as [|c a IH]; simpl; [reflexivity | now rewrite IH]. Qed.

Lemma substring_append_r (a b : string) :
  substring (String.length a) (String.length b) (a +:+ b) = b.
Proof.
  induction a as [|c a IH]; simpl; [apply substring_all | exact IH].
Qed.

Lemma endswith_append (a suffix : string) :
  endswith (a +:+ suffix) suffix = true.
Proof.
  unfold endswith. rewrite length_append. apply andb_true_intro. split.
  - apply Nat.leb_le. lia.
  - replace (String.length a + String.length suffix - String.length suffix)%nat
      with (String.length a) by lia.
    rewrite substring_append_r. apply String.eqb_refl.
Qed.

Lemma index_slash_cons (c : ascii) (s : string) :
  Ascii.eqb c "/" = false -> index 0 "/" s = None ->
  index 0 "/" (String c s) = None.
Proof.
  intros Hc Hs.
  change (index 0 "/" (String c s))
    with (if String.prefix "/" (String c s) then Some 0%nat
          else match index 0 "/" s with
               | Some n => Some (S n)
               | None => None
               end).
  rewrite Hs.
  change (String.prefix "/" (String c s))
    with (if ascii_dec "/" c then String.prefix "" s else false).
  destruct (ascii_dec "/" c) as [<-|_]; [|reflexivity].
  now rewrite Ascii.eqb_refl in Hc.
Qed.

(** A path is a directory part, empty or ending with a slash, followed by
    its base name, which holds no slash. *)
Lemma basename_split (p : string) :
  exists d, p = d +:+ os_path_basename p /\
            (d = "" \/ endswith d "/" = true) /\
            index 0 "/" (os_path_basename p) = None.
Proof.
  induction p as [|c p (d & Hp & Hd & Hb)].
  - exists "". repeat split; auto.
  - cbn [os_path_basename].
    destruct (index 0 "/" p) as [n|] eqn:Hi.
    + exists (String c d). split.
      { change (String c p = String c (d +:+ os_path_basename p)).
        f_equal. exact Hp. }
      split; [right|exact Hb].
      destruct Hd as [->|Hd].
      * change ("" +:+ os_path_basename p) with (os_path_basename p) in Hp.
        rewrite <- Hp in Hb. congruence.
      * rewrite (endswith_split d "/" Hd).
        change (String c (slice_drop_last (String.length "/") d +:+ "/"))
          with (String c (slice_drop_last (String.length "/") d) +:+ "/").
        apply endswith_append.
    + destruct (Ascii.eqb c "/") eqn:Hc.
      * apply Ascii.eqb_eq in Hc. subst c. exists "/".
        repeat split; auto.
      * exists "". repeat split; auto. now apply index_slash_cons.
Qed.

(** ** X17.  Every metric file gets an artifact in the list the loop of
    [build_report] fills, whose remote path is the last component of the
    local path: the local path is a directory part (empty or ending with a
    slash) followed by the remote path, and the remote path holds no slash.
    Files of the same name in different directories therefore get the same
    remote path. *)
Theorem artifact_remote_path_is_last_component
    (config : _Config) (path : string) :
  In path (metrics_file_names config) ->
  exists a d,
    In a (build_artifacts config) /\
    report_get a "local_path" = Some (PyStr path) /\
    report_get a "path" = Some (PyStr (os_path_basename path)) /\
    path = d +:+ os_path_basename path /\
    (d = "" \/ endswith d "/" = true) /\
    index 0 "/" (os_path_basename path) = None.
Proof.
  intros Hin. destruct (basename_split path) as (d & Hp & Hd & Hb).
  eexists. exists d. split; [|split; [|split; [|split; [exact Hp|]]]].
  - unfold build_artifacts. apply in_map_iff. exists path.
    split; [reflexivity | exact Hin].
  - reflexivity.
  - reflexivity.
  - split; assumption.
Qed.

Lemma artifact_remote_path_is_last_component_witness :
  exists a d,
    In a (build_artifacts config_ab) /\
    report_get a "local_path" = Some (PyStr "/tmp/a.txt") /\
    report_get a "path" = Some (PyStr (os_path_basename "/tmp/a.txt")) /\
    "/tmp/a.txt" = d +:+ os_path_basename "/tmp/a.txt" /\
    (d = "" \/ endswith d "/" = true) /\
    index 0 "/" (os_path_basename "/tmp/a.txt") = None.
Proof.
  apply (artifact_remote_path_is_last_component config_ab "/tmp/a.txt").
  left. reflexivity.
Defined.

Ltac read_config H :=
  repeat match type of H with
         | context [bind (env_get ?env ?k) _] =>
             let E := fresh "E" in
             destruct (env_get env k) eqn:E; cbn [bind] in H;
             [|discriminate]
         end.

(** The test name of a configuration is what the environment holds under
    [test_name]. *)
Lemma config_test_name (env : gmap string string) (name : string)
    (paths : list string) (run_time clock : Z) (c : _Config) :
  _Config__init__ (<["test_name" := name]> env) paths run_time clock = Ok c ->
  test_name c = name.
Proof.
  intros H. unfold _Config__init__ in H. read_config H.
  inversion H. cbn [test_name].
  match goal with
  | E : env_get _ "test_name" = Ok ?s |- ?s = _ =>
      unfold env_get in E; rewrite lookup_insert_eq in E; now inversion E
  end.
Qed.

(** The metric file names reach the configuration and nothing else. *)
Lemma config_init_paths (env : gmap string string) (paths paths' : list string)
    (run_time clock : Z) :
  _Config__init__ env paths' run_time clock
  = match _Config__init__ env paths run_time clock with
    | Ok c => Ok (with_metrics_file_names paths' c)
    | Raise e => Raise e
    end.
Proof.
  unfold _Config__init__.
  repeat match goal with
         | |- context [bind (env_get ?e ?k) _] =>
             destruct (env_get e k); cbn [bind]; [|reflexivity]
         end.
  reflexivity.
Qed.

Lemma build_report_ignores_metric_files (paths : list string) (c : _Config) :
  build_report (with_metrics_file_names paths c) = build_report c.
Proof. reflexivity. Qed.

(** ** X18.  The metric file names [cedar.run] returns have no influence on
    what [main__cedar_report] does: with a [cedar.run] that leaves the same
    world and returns other names and the same run time, it writes the same
    report to the same file, sends the same requests, runs the same command
    and ends the same way. *)
Theorem main_ignores_metric_file_names
    (p : Platform) (args : Args) (env : option (gmap string string))
    (w w1 : World) (names names' : list string) (run_time : Z) :
  cedar_run p args w = (Ok (names, run_time), w1) ->
  main__cedar_report
    (with_cedar_run (fun _ _ => (Ok (names', run_time), w1)) p) args env w
  = main__cedar_report p args env w.
Proof.
  intros Hrun. unfold main__cedar_report.
  change (effective_env (with_cedar_run _ p) env) with (effective_env p env).
  change (open_for_writing (with_cedar_run _ p)) with (open_for_writing p).
  cbn [with_cedar_run cedar_run utcnow json_dump json_dumps_credentials
       requests_get subprocess_call].
  rewrite Hrun.
  destruct (chosen_test_name (effective_env p env) args) as [name|e];
    [|reflexivity].
  rewrite (config_init_paths _ names names').
  destruct (_Config__init__ _ names run_time (utcnow p)) as [c|e];
    [|reflexivity].
  now rewrite build_report_ignores_metric_files.
Qed.

Lemma main_ignores_metric_file_names_witness :
  main__cedar_report
    (with_cedar_run
       (fun _ _ => (Ok ([], 90000000), after_metrics empty_world))
       (platform_with 0))
    default_args None empty_world
  = main__cedar_report (platform_with 0) default_args None empty_world.
Proof.
  apply (main_ignores_metric_file_names (platform_with 0) default_args None
           empty_world (after_metrics empty_world)
           ["/tmp/a.txt"; "/tmp/b.txt"] [] 90000000).
  reflexivity.
Defined.

(** A fetch and [get_command] keep the content of every file that exists. *)
Lemma fetch_keeps_content
    (g : string -> list (string * string) -> result Response)
    (url output : string) (kwargs : list (string * string)) (w : World)
    (p content : string) :
  files w !! p = Some content ->
  files (snd (_fetch g url output kwargs w)) !! p = Some content.
Proof.
  intros Hp. unfold _fetch.
  destruct (os_path_exists w output) eqn:Hex; [exact Hp|].
  destruct (g url kwargs) as [resp|e]; [|exact Hp].
  destruct (raise_for_status resp); [|exact Hp].
  cbn [snd files]. rewrite lookup_insert_ne; [exact Hp|].
  intros <-. unfold os_path_exists in Hex.
  apply bool_decide_eq_false in Hex. apply Hex. eauto.
Qed.

Lemma get_command_keeps_content
    (g : string -> list (string * string) -> result Response)
    (auth : string) (w : World) (p content : string) :
  files w !! p = Some content ->
  files (snd (get_command g auth w)) !! p = Some content.
Proof.
  intros Hp. unfold get_command, user_cert, user_key, root_ca.
  pose proof (fetch_keeps_content g
                "https://cedar.mongodb.com/rest/v1/admin/users/certificate"
                "cedar.user.crt" [("data", auth)] w p content Hp) as H1.
  destruct (_fetch g _ "cedar.user.crt" _ w) as [[cert|e] w1];
    cbn [snd] in *; [|exact H1].
  pose proof (fetch_keeps_content g
                "https://cedar.mongodb.com/rest/v1/admin/users/certificate/key"
                "cedar.user.key" [("data", auth)] w1 p content H1) as H2.
  destruct (_fetch g _ "cedar.user.key" _ w1) as [[key|e] w2];
    cbn [snd] in *; [|exact H2].
  pose proof (fetch_keeps_content g
                "https://cedar.mongodb.com/rest/v1/admin/ca"
                "cedar.ca.pem" [] w2 p content H2) as H3.
  destruct (_fetch g _ "cedar.ca.pem" _ w2) as [[ca|e] w3];
    cbn [snd] in *; exact H3.
Qed.

(** ** X19.  [main__cedar_report] checks the environment before it acts.
    When no test name is given and [EVG_task_name] is absent it raises that
    [KeyError] before [cedar.run] is called: the world is untouched and no
    command is run.  When [cedar.run] has returned and a key of
    [_Config.__init__] is absent, it raises the [KeyError] of that key with
    the world exactly as [cedar.run] left it: [main__cedar_report] itself
    has written no report, sent no request and run no command. *)
Theorem missing_config_key_stops_main
    (p : Platform) (args : Args) (env : option (gmap string string))
    (w : World) :
  (forall e, chosen_test_name (effective_env p env) args = Raise e ->
     e = KeyError "EVG_task_name" /\
     main__cedar_report p args env w = raising e w) /\
  (forall name names run_time w1 k,
     chosen_test_name (effective_env p env) args = Ok name ->
     cedar_run p args w = (Ok (names, run_time), w1) ->
     first_missing (<["test_name" := name]> (effective_env p env)) config_keys
     = Some k ->
     main__cedar_report p args env w = raising (KeyError k) w1).
Proof.
  split.
  - intros e He. split.
    + unfold chosen_test_name, env_get in He.
      destruct (args_test_name args) as [name|];
        [destruct (String.eqb name ""); [|discriminate]|];
        destruct (effective_env p env !! "EVG_task_name");
        try discriminate; now inversion He.
    + unfold main__cedar_report. now rewrite He.
  - intros name names run_time w1 k Hname Hrun Hk.
    unfold main__cedar_report. rewrite Hname, Hrun.
    pose proof (config_init_first_missing
                  (<["test_name" := name]> (effective_env p env))
                  names run_time (utcnow p)) as Hinit.
    rewrite Hk in Hinit. now rewrite Hinit.
Qed.

Lemma missing_config_key_stops_main_witness :
  main__cedar_report (platform_with 0) default_args
    (Some (delete "aws_key" (os_environ (platform_with 0)))) empty_world
  = raising (KeyError "aws_key") (after_metrics empty_world).
Proof.
  apply (proj2 (missing_config_key_stops_main (platform_with 0)
                  default_args
                  (Some (delete "aws_key" (os_environ (platform_with 0))))
                  empty_world)
           "insert" ["/tmp/a.txt"; "/tmp/b.txt"] 90000000
           (after_metrics empty_world) "aws_key").
  - vm_compute. reflexivity.
  - reflexivity.
  - vm_compute. reflexivity.
Defined.

(** ** X20.  The report is written before the Jira credentials are read.
    When [cedar.run] has returned and the configuration is made: if the
    report file cannot be opened for writing, the exception of [open] leaves
    [main__cedar_report] with nothing written and the credentials unread; if
    it can be opened and [perf_jira_user] or [perf_jira_pw] is absent,
    [main__cedar_report] raises the [KeyError] of the first absent one, the
    report is in its file, and no request has been sent nor command run. *)
Theorem report_is_written_before_credentials_are_read
    (p : Platform) (args : Args) (env : option (gmap string string))
    (w w1 : World) (name : string) (names : list string) (run_time : Z)
    (config : _Config) :
  chosen_test_name (effective_env p env) args = Ok name ->
  cedar_run p args w = (Ok (names, run_time), w1) ->
  _Config__init__ (<["test_name" := name]> (effective_env p env))
    names run_time (utcnow p) = Ok config ->
  (forall e, open_for_writing p (report_path args) = Raise e ->
     main__cedar_report p args env w = raising e w1) /\
  (forall k,
     open_for_writing p (report_path args) = Ok tt ->
     first_missing (<["test_name" := name]> (effective_env p env))
       ["perf_jira_user"; "perf_jira_pw"] = Some k ->
     main__cedar_report p args env w
     = raising (KeyError k) (with_report p args config w1) /\
     files (with_report p args config w1) !! report_path args
     = Some (json_dump p (build_report config))).
Proof.
  intros Hname Hrun Hinit. split.
  - intros e Hopen. unfold main__cedar_report.
    now rewrite Hname, Hrun, Hinit, Hopen.
  - intros k Hopen Hk. split.
    + unfold main__cedar_report. rewrite Hname, Hrun, Hinit, Hopen.
      unfold first_missing in Hk. cbn [List.find] in Hk. unfold env_get.
      destruct (_ !! "perf_jira_user");
        [|inversion Hk; reflexivity].
      destruct (_ !! "perf_jira_pw"); [discriminate|].
      inversion Hk. reflexivity.
    + unfold with_report. cbn [files]. apply lookup_insert_eq.
Qed.

Lemma report_is_written_before_credentials_are_read_witness :
  returned
    (main__cedar_report (platform_with 0) default_args
       (Some (delete "perf_jira_pw" (os_environ (platform_with 0))))
       empty_world)
  = Raise (KeyError "perf_jira_pw") /\
  returned
    (main__cedar_report (platform_with 0)
       {| args_test_name := None; output_dir := "out"; report_file := "" |}
       None empty_world)
  = Raise OSError.
Proof.
  split.
  - set (env := delete "perf_jira_pw" (os_environ (platform_with 0))).
    assert (Hname : chosen_test_name
                      (effective_env (platform_with 0) (Some env))
                      default_args = Ok "insert")
      by (vm_compute; reflexivity).
    assert (Hmissing : first_missing
                         (<["test_name" := "insert"]>
                            (effective_env (platform_with 0) (Some env)))
                         ["perf_jira_user"; "perf_jira_pw"]
                       = Some "perf_jira_pw")
      by (vm_compute; reflexivity).
    destruct (_Config__init__
                (<["test_name" := "insert"]>
                   (effective_env (platform_with 0) (Some env)))
                ["/tmp/a.txt"; "/tmp/b.txt"] 90000000
                (utcnow (platform_with 0)))
      as [config|] eqn:Hinit; [|vm_compute in Hinit; discriminate].
    rewrite (proj1 (proj2 (report_is_written_before_credentials_are_read
                             (platform_with 0) default_args (Some env)
                             empty_world (after_metrics empty_world) "insert"
                             ["/tmp/a.txt"; "/tmp/b.txt"] 90000000 config
                             Hname eq_refl Hinit)
                      "perf_jira_pw" ltac:(reflexivity) Hmissing)).
    reflexivity.
  - set (args := {| args_test_name := None; output_dir := "out";
                    report_file := "" |}).
    assert (Hname : chosen_test_name (effective_env (platform_with 0) None)
                      args = Ok "insert")
      by (vm_compute; reflexivity).
    destruct (_Config__init__
                (<["test_name" := "insert"]>
                   (effective_env (platform_with 0) None))
                ["/tmp/a.txt"; "/tmp/b.txt"] 90000000
                (utcnow (platform_with 0)))
      as [config|] eqn:Hinit; [|vm_compute in Hinit; discriminate].
    rewrite (proj1 (report_is_written_before_credentials_are_read
                      (platform_with 0) args None empty_world
                      (after_metrics empty_world) "insert"
                      ["/tmp/a.txt"; "/tmp/b.txt"] 90000000 config
                      Hname eq_refl Hinit)
               OSError ltac:(reflexivity)).
    reflexivity.
Defined.

(** ** X21.  When [cedar.run] returns, the configuration is made, the
    report file can be opened for writing, the credentials are present and
    the certificates are obtained, [main__cedar_report] runs one command,
    the fixed upload command, whose [--path] is [cedar_report.json] whatever
    the path of the report written was; the report, whose test name is the
    chosen one, is in the file the arguments name and fetching the
    certificates has not overwritten it; and the call returns exactly when
    the command exits with status 0, raising [CalledProcessError] with the
    status otherwise. *)
Theorem main_runs_fixed_upload_command
    (p : Platform) (args : Args) (env : option (gmap string string))
    (w w1 : World) (name : string) (names : list string) (run_time : Z)
    (config : _Config) (user pw : string) (cmd : list string) :
  chosen_test_name (effective_env p env) args = Ok name ->
  cedar_run p args w = (Ok (names, run_time), w1) ->
  _Config__init__ (<["test_name" := name]> (effective_env p env))
    names run_time (utcnow p) = Ok config ->
  open_for_writing p (report_path args) = Ok tt ->
  <["test_name" := name]> (effective_env p env) !! "perf_jira_user"
  = Some user ->
  <["test_name" := name]> (effective_env p env) !! "perf_jira_pw"
  = Some pw ->
  fst (get_command (requests_get p) (json_dumps_credentials p user pw)
         (with_report p args config w1)) = Ok cmd ->
  let outcome := main__cedar_report p args env w in
  commands_run outcome = [upload_command] /\
  test_name config = name /\
  files (final_world outcome) !! report_path args
  = Some (json_dump p (build_report config)) /\
  (subprocess_call p upload_command = Ok 0 -> returned outcome = Ok tt) /\
  (forall code, subprocess_call p upload_command = Ok code -> code <> 0 ->
                returned outcome = Raise (CalledProcessError code)) /\
  (forall e, subprocess_call p upload_command = Raise e ->
             returned outcome = Raise e).
Proof.
  intros Hname Hrun Hinit Hopen Huser Hpw Hcmd. cbv zeta.
  unfold main__cedar_report. rewrite Hname, Hrun, Hinit, Hopen.
  unfold env_get. rewrite Huser, Hpw.
  fold (with_report p args config w1).
  pose proof (get_command_ok_files _ _ _ _ Hcmd) as [-> _].
  pose proof (get_command_keeps_content (requests_get p)
                (json_dumps_credentials p user pw)
                (with_report p args config w1) (report_path args)
                (json_dump p (build_report config))) as Hkeep.
  destruct (get_command _ _ _) as [[c|e] w'] eqn:Hget; cbn [fst] in Hcmd;
    [|discriminate].
  inversion Hcmd. subst c. cbn [commands_run final_world returned snd] in *.
  split; [reflexivity|].
  split; [eapply config_test_name; eassumption|].
  split; [apply Hkeep; unfold with_report; cbn [files];
          apply lookup_insert_eq|].
  unfold run. split; [|split].
  - intros ->. reflexivity.
  - intros code -> Hcode. cbn [bind]. apply Z.eqb_neq in Hcode.
    now rewrite Hcode.
  - intros e ->. reflexivity.
Qed.

Lemma main_runs_fixed_upload_command_witness :
  commands_run
    (main__cedar_report (platform_with 3)
       {| args_test_name := Some "nightly"; output_dir := "out";
          report_file := "other.json" |}
       None empty_world)
  = [upload_command].
Proof.
  set (args := {| args_test_name := Some "nightly"; output_dir := "out";
                  report_file := "other.json" |}).
  set (env := <["test_name" := "nightly"]>
                (effective_env (platform_with 3) None)).
  set (w1 := after_metrics empty_world).
  assert (Huser : env !! "perf_jira_user" = Some "jane")
    by (vm_compute; reflexivity).
  assert (Hpw : env !! "perf_jira_pw" = Some "pw")
    by (vm_compute; reflexivity).
  destruct (_Config__init__ env ["/tmp/a.txt"; "/tmp/b.txt"] 90000000
              (utcnow (platform_with 3)))
    as [config|] eqn:Hinit; [|vm_compute in Hinit; discriminate].
  assert (Hok : forall request, accepted (answering 200 "pem") request "pem")
    by (intros request; exists 200; split; [reflexivity | lia]).
  assert (Hnone : forall f, In f pem_files ->
            os_path_exists (with_report (platform_with 3) args config w1) f
            = false)
    by (intros f [<-|[<-|[<-|[]]]]; vm_compute; reflexivity).
  assert (Hcmd : fst (get_command (requests_get (platform_with 3))
                        (json_dumps_credentials (platform_with 3) "jane" "pw")
                        (with_report (platform_with 3) args config w1))
                 = Ok upload_command).
  { change (requests_get (platform_with 3)) with (answering 200 "pem").
    now rewrite (proj1 (get_command_fetches_in_order_helper
                          (answering 200 "pem") _ _ "pem" "pem" "pem"
                          Hnone (Hok _) (Hok _) (Hok _))). }
  exact (proj1 (main_runs_fixed_upload_command (platform_with 3) args None
                  empty_world w1 "nightly" ["/tmp/a.txt"; "/tmp/b.txt"]
                  90000000 config "jane" "pw" upload_command
                  eq_refl eq_refl Hinit eq_refl Huser Hpw Hcmd)).
Defined.

(** ** X22.  Two defaults of [main__cedar_report]: an [env] argument that
    is an empty dictionary is replaced by [os.environ] just as an absent one
    is, so both calls do the same; and an empty [--test-name] counts as
    none, the test name being then [EVG_task_name], while a non-empty one is
    taken whatever the environment holds. *)
Theorem main_defaults (p : Platform) (args : Args) (w : World) :
  main__cedar_report p args (Some ∅) w = main__cedar_report p args None w /\
  (forall env,
     args_test_name args = Some "" \/ args_test_name args = None ->
     chosen_test_name env args = env_get env "EVG_task_name") /\
  (forall env name,
     args_test_name args = Some name -> name <> "" ->
     chosen_test_name env args = Ok name).
Proof.
  split; [|split].
  - unfold main__cedar_report, effective_env.
    now rewrite bool_decide_eq_true_2 by reflexivity.
  - intros env [H|H]; unfold chosen_test_name; now rewrite H.
  - intros env name H Hne. unfold chosen_test_name. rewrite H.
    apply String.eqb_neq in Hne. now rewrite Hne.
Qed.

Lemma main_defaults_witness :
  chosen_test_name (os_environ (platform_with 0))
    {| args_test_name := Some ""; output_dir := "out";
       report_file := "cedar_report.json" |}
  = Ok "insert".
Proof.
  rewrite (proj1 (proj2 (main_defaults (platform_with 0)
                           {| args_test_name := Some ""; output_dir := "out";
                              report_file := "cedar_report.json" |}
                           empty_world))
             (os_environ (platform_with 0)) (or_introl eq_refl)).
  vm_compute. reflexivity.
Defined.

End CedarExtras.
